(** * pbix_to_pbit: the conversion pipeline of [converter.py]

    A shallow embedding of the orchestration code of [src/converter.py]:
    the text helpers it relies on ([re.search], [str.strip], [in]), the
    pure path algebra of [pathlib], the per-file pipeline
    ([process_pbix_file] and the functions it calls) and the batch loop of
    [main] with its progress accounting.

    The program talks to its platform (file system, child processes, the
    clock): the platform is the type class [World], whose answers may
    depend on everything the program has done so far.  A run is the list
    of events the program emits, in order. *)

From Stdlib Require Import String Ascii List ZArith Bool Lia QArith Qround.
From Stdlib Require Import DecimalString.
Import ListNotations.

Local Open Scope list_scope.
Local Open Scope Z_scope.

(** ** Python text primitives

    A [str] is modelled as a [string] of one-byte characters, read as the
    code points 0..255. *)

Module PyStr.

Definition code (c : ascii) : N := N_of_ascii c.

(** [str.isspace] on the code points below 256: TAB..CR, FS..US, SPACE,
    NEL (0x85) and NBSP (0xA0). *)
Definition isspace (c : ascii) : bool :=
  let n := code c in
  (((9 <=? n) && (n <=? 13)) || ((28 <=? n) && (n <=? 32))
   || (n =? 133) || (n =? 160))%N.

Fixpoint lstrip (s : string) : string :=
  match s with
  | EmptyString => EmptyString
  | String c s' => if isspace c then lstrip s' else s
  end.

Fixpoint rstrip (s : string) : string :=
  match s with
  | EmptyString => EmptyString
  | String c s' =>
      match rstrip s' with
      | EmptyString => if isspace c then EmptyString else String c EmptyString
      | r => String c r
      end
  end.

(** [s.strip()] *)
Definition strip (s : string) : string := rstrip (lstrip s).

(** Truthiness of a [str]: [if s:] holds for the non-empty ones. *)
Definition truthy (s : string) : bool :=
  match s with EmptyString => false | String _ _ => true end.

Fixpoint startswith (p s : string) : bool :=
  match p, s with
  | EmptyString, _ => true
  | String a p', String b s' => Ascii.eqb a b && startswith p' s'
  | String _ _, EmptyString => false
  end.

(** [needle in hay] *)
Fixpoint contains (needle hay : string) : bool :=
  startswith needle hay
  || match hay with
     | EmptyString => false
     | String _ hay' => contains needle hay'
     end.

(** [sep.join(items)] *)
Fixpoint join (sep : string) (items : list string) : string :=
  match items with
  | [] => EmptyString
  | [x] => x
  | x :: rest => (x ++ sep ++ join sep rest)%string
  end.

(** [s * n] *)
Fixpoint repeat (s : string) (n : nat) : string :=
  match n with
  | O => EmptyString
  | S n' => (s ++ repeat s n')%string
  end.

(** Lower-casing as [re.IGNORECASE] applies it to a candidate character
    before comparing it with an ASCII letter of the pattern: only A..Z
    fold onto a..z (the other upper-case letters below 256 fold onto
    letters above 127, which no character of an ASCII pattern equals). *)
Definition lower (c : ascii) : ascii :=
  let n := code c in
  if ((65 <=? n) && (n <=? 90))%N then ascii_of_N (n + 32) else c.

Definition newline : ascii := ascii_of_N 10.

End PyStr.

(** ** The regular expression of [parse_pbit_output]

    The pattern of [re.search] there is the literal text
    [PBIT file written to: ] followed by one greedy group of any
    characters other than the line feed, searched with [re.IGNORECASE].
    [re.search] returns the leftmost match; the function below returns
    its group 1. *)

Module Re.

(** The literal [lit] at the start of [s], case ignored: what follows
    it. *)
Fixpoint match_literal_ci (lit s : string) : option string :=
  match lit, s with
  | EmptyString, _ => Some s
  | String a lit', String b s' =>
      if Ascii.eqb (PyStr.lower a) (PyStr.lower b)
      then match_literal_ci lit' s' else None
  | String _ _, EmptyString => None
  end.

(** The greedy dot-star group at the start of [s]: the longest run
    without a line feed. *)
Fixpoint dot_star (s : string) : string :=
  match s with
  | EmptyString => EmptyString
  | String c s' =>
      if Ascii.eqb c PyStr.newline then EmptyString
      else String c (dot_star s')
  end.

(** [re.search] of the literal [lit] followed by the dot-star group in
    [s], case ignored: [None] when there is no match, otherwise
    [match.group(1)] of the leftmost one. *)
Fixpoint search_group (lit s : string) : option string :=
  match match_literal_ci lit s with
  | Some rest => Some (dot_star rest)
  | None =>
      match s with
      | EmptyString => None
      | String _ s' => search_group lit s'
      end
  end.

End Re.

Example strip_example :
  PyStr.strip "  C:\out\a.pbit "%string = "C:\out\a.pbit"%string.
Proof. reflexivity. Qed.

Example search_group_example :
  Re.search_group "PBIT file written to: "
    "Compiling...
pbit FILE written to: C:\out\a.pbit
done"%string = Some "C:\out\a.pbit"%string.
Proof. reflexivity. Qed.

(** ** Pure paths

    [pathlib]'s pure path algebra, as far as the program uses it.  A path
    is its anchor (drive and root, empty for a relative path) and the
    list [parts] of the components below the anchor.  The flavour of the platform gives the
    separator and the case folding used when two paths are compared
    (the identity on POSIX, lower-casing on Windows). *)

Class Flavour := {
  sep : string;
  normcase : string -> string
}.

Record Path := mkPath { anchor : string; parts : list string }.

(** The exceptions (subclasses of [Exception]) the program can meet. *)
Inductive Exn :=
| ValueError (msg : string)
| CalledProcessError (returncode : Z) (cmd : list string)
                     (stdout stderr : string)
| OtherException (cls msg : string).

Inductive Outcome (A : Type) :=
| Ok (a : A)
| Raise (e : Exn)
| SysExit (code : Z).
Arguments Ok {A} a.
Arguments Raise {A} e.
Arguments SysExit {A} code.

Module PurePath.
Section WithFlavour.
Context {fl : Flavour}.

(** [str(p)] *)
Definition str (p : Path) : string :=
  match anchor p, parts p with
  | EmptyString, [] => "."%string
  | a, t => (a ++ PyStr.join sep t)%string
  end.

(** [p / q] *)
Definition joinpath (p q : Path) : Path :=
  match anchor q with
  | EmptyString => mkPath (anchor p) (parts p ++ parts q)
  | _ => q
  end.

(** [p / "component"] *)
Definition joinname (p : Path) (component : string) : Path :=
  joinpath p (mkPath EmptyString [component]).

(** [p.parent] *)
Definition parent (p : Path) : Path :=
  mkPath (anchor p) (removelast (parts p)).

(** [p.name] *)
Definition name (p : Path) : string := last (parts p) EmptyString.

Fixpoint is_prefix (xs ys : list string) : bool :=
  match xs, ys with
  | [], _ => true
  | x :: xs', y :: ys' =>
      String.eqb (normcase x) (normcase y) && is_prefix xs' ys'
  | _ :: _, [] => false
  end.

(** [p.is_relative_to(other)] *)
Definition is_relative_to (p other : Path) : bool :=
  String.eqb (normcase (anchor p)) (normcase (anchor other))
  && is_prefix (parts other) (parts p).

(** [p.relative_to(other)]: the components of [p] below [other], or
    [ValueError] when [p] does not lie under [other]. *)
Definition relative_to (p other : Path) : Outcome Path :=
  if is_relative_to p other
  then Ok (mkPath EmptyString (skipn (length (parts other)) (parts p)))
  else Raise (ValueError
                (str p ++ " is not in the subpath of " ++ str other)%string).

End WithFlavour.
End PurePath.

Notation "p // q" := (PurePath.joinpath p q) (at level 40, left associativity).

(** ** Floating-point numbers

    The type of Python's [float], and the operations of [float] and
    [int] that [main] and [format_duration] apply to clock readings.
    They are an interface: the IEEE arithmetic of the interpreter is one
    implementation, the exact rationals are another ([QFloat] below). *)

Class FloatType := { float : Type }.

Class PyFloat {ft : FloatType} := {
  float_zero : float;                           (* 0.0 *)
  float_add : float -> float -> float;          (* x + y *)
  float_sub : float -> float -> float;          (* x - y *)
  float_mul : float -> float -> float;          (* x * y *)
  float_truediv : float -> float -> float;      (* x / y *)
  float_floordiv : float -> float -> float;     (* x // y *)
  float_mod : float -> float -> float;          (* x % y *)
  float_of_int : Z -> float;                    (* int operand of a float operation *)
  int_truediv : Z -> Z -> float;                (* m / n on two ints *)
  int_of_float : float -> Z                     (* int(x) *)
}.

(** [int(x)] raises on a NaN and on the infinities only.  The readings
    of the clock are finite, and so is what [main] derives from them, so
    [int_of_float] is taken as total. *)

(** ** Events

    What the program does to its platform, and what it learns from it. *)

Inductive Level := DEBUG | INFO | WARNING | ERROR.

Record CompletedProcess := mkCompleted {
  cp_returncode : Z;
  cp_stdout : string;
  cp_stderr : string
}.

Section Events.
Context {ft : FloatType}.

(** The arguments of a log record. *)
Inductive Value :=
| VStr (s : string)
| VInt (n : Z)
| VFloat (x : float)
| VPath (p : Path)
| VExn (e : Exn).

Inductive Event :=
(** [logger.<level>(msg, *args)] *)
| Log (level : Level) (msg : string) (args : list Value)
(** [p.exists()] and its answer *)
| PathExists (p : Path) (answer : bool)
(** [root.rglob(pattern)] and the files found *)
| Rglob (root : Path) (pattern : string) (found : list Path)
(** [p.mkdir(parents=True, exist_ok=True)] and the exception raised, if any *)
| Mkdir (p : Path) (raised : option Exn)
(** the child process [cmd] run to completion, or the exception raised
    when launching it or reading its output *)
| Run (cmd : list string) (result : Exn + CompletedProcess)
(** the recursive deletion of [p] and the error met, if any *)
| Rmtree (p : Path) (failed : option Exn)
(** [time.time()] and its reading *)
| Time (t : float).

Definition Trace := list Event.

End Events.

(** ** The platform

    Every answer may depend on the history: the events of the run so
    far. *)

Class World {ft : FloatType} := {
  os_exists : Trace -> Path -> bool;
  os_rglob : Trace -> Path -> string -> list Path;
  os_mkdir : Trace -> Path -> option Exn;
  os_run : Trace -> list string -> Exn + CompletedProcess;
  os_rmtree : Trace -> Path -> option Exn;
  os_time : Trace -> float
}.

(** ** Computations

    A computation reads the history and yields an outcome together with
    the events it emits itself, oldest first.  An exception ends the
    computation that raised it, up to the nearest [try_except];
    [sys.exit] is not an [Exception] and passes through every handler. *)

Definition M {ft : FloatType} (A : Type) : Type := Trace -> Outcome A * Trace.

Section Monad.
Context {ft : FloatType}.

Definition ret {A} (a : A) : M A := fun _ => (Ok a, []).

Definition bind {A B} (m : M A) (f : A -> M B) : M B :=
  fun h =>
    match m h with
    | (Ok a, e1) => let (r, e2) := f a (h ++ e1) in (r, e1 ++ e2)
    | (Raise e, e1) => (Raise e, e1)
    | (SysExit c, e1) => (SysExit c, e1)
    end.

(** An outcome computed without effects, such as that of a path
    operation. *)
Definition lift {A} (o : Outcome A) : M A := fun _ => (o, []).

Definition emit (ev : Event) : M unit := fun _ => (Ok tt, [ev]).

(** [try: m  except Exception as e: handler e] *)
Definition try_except {A} (m : M A) (handler : Exn -> M A) : M A :=
  fun h =>
    match m h with
    | (Raise e, e1) => let (r, e2) := handler e (h ++ e1) in (r, e1 ++ e2)
    | other => other
    end.

(** [sys.exit(code)] *)
Definition sys_exit {A} (code : Z) : M A := fun _ => (SysExit code, []).

End Monad.

Notation "x <- m ;; k" := (bind m (fun x => k))
  (at level 61, m at next level, right associativity).
Notation "m ;; k" := (bind m (fun _ => k))
  (at level 61, right associativity).

(** ** The program *)

Section Converter.
Context {fl : Flavour} {ft : FloatType} {fp : PyFloat} {world : World}.

Import PurePath.
Local Open Scope string_scope.

(** *** Library calls *)

Definition logger_debug msg args : M unit := emit (Log DEBUG msg args).
Definition logger_info msg args : M unit := emit (Log INFO msg args).
Definition logger_warning msg args : M unit := emit (Log WARNING msg args).
Definition logger_error msg args : M unit := emit (Log ERROR msg args).

(** [p.exists()] *)
Definition path_exists (p : Path) : M bool :=
  fun h => let b := os_exists h p in (Ok b, [PathExists p b]).

(** [list(root.rglob(pattern))] *)
Definition rglob (root : Path) (pattern : string) : M (list Path) :=
  fun h => let found := os_rglob h root pattern in
           (Ok found, [Rglob root pattern found]).

(** [p.mkdir(parents=True, exist_ok=True)] *)
Definition mkdir (p : Path) : M unit :=
  fun h =>
    match os_mkdir h p with
    | None => (Ok tt, [Mkdir p None])
    | Some e => (Raise e, [Mkdir p (Some e)])
    end.

(** [subprocess.run(command, capture_output=True, text=True, check=True)]:
    with [check=True] a non-zero return code raises
    [CalledProcessError]. *)
Definition subprocess_run (command : list string) : M CompletedProcess :=
  fun h =>
    match os_run h command with
    | inl e => (Raise e, [Run command (inl e)])
    | inr cp =>
        (if cp_returncode cp =? 0 then Ok cp
         else Raise (CalledProcessError (cp_returncode cp) command
                       (cp_stdout cp) (cp_stderr cp)),
         [Run command (inr cp)])
    end%Z.

(** [shutil.rmtree(p, ignore_errors=...)] *)
Definition shutil_rmtree (p : Path) (ignore_errors : bool) : M unit :=
  fun h =>
    match os_rmtree h p with
    | None => (Ok tt, [Rmtree p None])
    | Some e => (if ignore_errors then Ok tt else Raise e, [Rmtree p (Some e)])
    end.

(** [time.time()] *)
Definition time_time : M float :=
  fun h => let t := os_time h in (Ok t, [Time t]).

(** [str(n)] for an [int] *)
Definition str_int (n : Z) : string :=
  DecimalString.NilZero.string_of_int (Z.to_int n).

(** *** [validate_paths] *)

Definition MSG_CLI_NOT_FOUND := "pbi-tools executable not found: %s".
Definition MSG_CORE_NOT_FOUND := "pbi-tools.core executable not found: %s".

Definition validate_paths (cli_path core_path : Path) : M unit :=
  cli_exists <- path_exists cli_path ;;
  (if negb cli_exists then
     logger_error MSG_CLI_NOT_FOUND [VPath cli_path] ;;
     sys_exit 1
   else ret tt) ;;
  core_exists <- path_exists core_path ;;
  if negb core_exists then
    logger_error MSG_CORE_NOT_FOUND [VPath core_path] ;;
    sys_exit 1
  else ret tt.

(** *** [find_pbix_files] *)

Definition PBIX_PATTERN := "*.pbix".
Definition MSG_SEARCHING := "Searching for .pbix files in %s...".
Definition MSG_FOUND := "Found %d files.".

Definition find_pbix_files (report_folder : Path) : M (list Path) :=
  logger_info MSG_SEARCHING [VPath report_folder] ;;
  pbix_files <- rglob report_folder PBIX_PATTERN ;;
  logger_info MSG_FOUND [VInt (Z.of_nat (length pbix_files))] ;;
  ret pbix_files.

(** *** [ensure_directories] *)

Definition ensure_directories
    (output_folder target_dir extract_folder temp_folder : Path) : M unit :=
  mkdir output_folder ;;
  mkdir target_dir ;;
  mkdir extract_folder ;;
  mkdir temp_folder.

(** *** [run_subprocess] *)

Definition MODEL_NOT_DESERIALIZED := "could not be deserialized".
Definition MSG_MODEL_NOT_SUPPORTED :=
  "File model is not supported. Model required: V3".
Definition MSG_PROCESSING_ERROR :=
  "Error while processing the file. Check the logs for more information.".
Definition MSG_SUBPROCESS_DEBUG :=
  "%s failed with return code %d: %s
Command: %s
Stdout: %s
Stderr: %s".
Definition MSG_SUBPROCESS_UNEXPECTED := "Unexpected error during %s: %s".

Definition run_subprocess (command : list string) (description : string)
  : M (option string) :=
  try_except
    (result <- subprocess_run command ;;
     ret (Some (cp_stdout result)))
    (fun e =>
       match e with
       | CalledProcessError returncode _ stdout stderr =>
           (if PyStr.contains MODEL_NOT_DESERIALIZED stdout
            then logger_error MSG_MODEL_NOT_SUPPORTED []
            else logger_error MSG_PROCESSING_ERROR []) ;;
           logger_debug MSG_SUBPROCESS_DEBUG
             [VStr description; VInt returncode; VExn e;
              VStr (PyStr.join " " command); VStr stdout; VStr stderr] ;;
           ret None
       | _ =>
           logger_error MSG_SUBPROCESS_UNEXPECTED [VStr description; VExn e] ;;
           ret None
       end).

(** *** [extract_pbix] and [compile_to_pbit] *)

Definition extract_command (cli_path pbix_file extract_folder : Path)
  : list string :=
  [str cli_path; "extract"; str pbix_file; "-extractFolder";
   str extract_folder].

Definition extract_pbix (cli_path pbix_file extract_folder : Path)
  : M (option string) :=
  run_subprocess (extract_command cli_path pbix_file extract_folder)
    ("extraction of " ++ name pbix_file).

Definition compile_command (core_path extract_folder target_dir : Path)
  : list string :=
  [str core_path; "compile"; str extract_folder; str target_dir;
   "PBIT"; "True"].

Definition compile_to_pbit (core_path extract_folder target_dir : Path)
  : M (option string) :=
  run_subprocess (compile_command core_path extract_folder target_dir)
    ("compilation to PBIT in " ++ str target_dir).

(** *** [parse_pbit_output] *)

Definition PBIT_MARKER := "PBIT file written to: ".
Definition NO_V3_MODEL := "does not contain a V3 model".
Definition MSG_SKIPPING := "Skipping: PBIX requires V3 model".
Definition MSG_PARSE_FAILED := "Failed to parse PBIT output path".

Definition parse_pbit_output (stdout : string) : M (option string) :=
  match Re.search_group PBIT_MARKER stdout with
  | Some group1 => ret (Some (PyStr.strip group1))
  | None =>
      (if PyStr.contains NO_V3_MODEL stdout
       then logger_warning MSG_SKIPPING []
       else logger_error MSG_PARSE_FAILED []) ;;
      ret None
  end.

(** *** [process_pbix_file] *)

(** The first three statements of the [try] block: the path of the file
    relative to the report folder, and from it the target directory and
    the extraction directory, in this order. *)
Definition resolve_dirs
    (pbix_file output_folder report_folder temp_folder : Path)
  : Outcome (Path * Path) :=
  match relative_to pbix_file report_folder with
  | Ok relative_path =>
      let target_dir := output_folder // parent relative_path in
      let extract_folder := temp_folder // parent relative_path in
      Ok (target_dir, extract_folder)
  | Raise e => Raise e
  | SysExit c => SysExit c
  end.

Definition MSG_PROCESSING := "Processing: %s".
Definition MSG_OUTPUT := "Output: %s".
Definition MSG_CLEANED := "Extract folder cleaned: %s".
Definition MSG_NO_PBIT := "No PBIT file generated for %s".
Definition MSG_UNEXPECTED := "Unexpected error processing %s: %s".

(** The body of the [try] block. *)
Definition process_pbix_file_body
    (pbix_file output_folder cli_path core_path report_folder
       temp_folder : Path)
    (clean_extract : bool) : M unit :=
  dirs <- lift (resolve_dirs pbix_file output_folder report_folder
                  temp_folder) ;;
  let target_dir := fst dirs in
  let extract_folder := snd dirs in
  logger_info (PyStr.repeat "-" 70) [] ;;
  logger_info MSG_PROCESSING [VPath pbix_file] ;;
  ensure_directories output_folder target_dir extract_folder temp_folder ;;
  (* Extract *)
  extract_stdout <- extract_pbix cli_path pbix_file extract_folder ;;
  match extract_stdout with
  | None | Some EmptyString => ret tt          (* if not extract_stdout: return *)
  | Some _ =>
      (* Compile *)
      compile_stdout <- compile_to_pbit core_path extract_folder target_dir ;;
      match compile_stdout with
      | None | Some EmptyString => ret tt      (* if not compile_stdout: return *)
      | Some compile_text =>
          (* Parse output *)
          pbit_file_path <- parse_pbit_output compile_text ;;
          match pbit_file_path with
          | Some (String c rest) =>            (* if pbit_file_path: *)
              logger_info MSG_OUTPUT [VStr (String c rest)] ;;
              if clean_extract then
                shutil_rmtree extract_folder true ;;
                logger_info MSG_CLEANED [VPath extract_folder]
              else ret tt
          | _ =>
              logger_warning MSG_NO_PBIT [VStr (name pbix_file)]
          end
      end
  end.

Definition process_pbix_file
    (pbix_file output_folder cli_path core_path report_folder
       temp_folder : Path)
    (clean_extract : bool) : M unit :=
  try_except
    (process_pbix_file_body pbix_file output_folder cli_path core_path
       report_folder temp_folder clean_extract)
    (fun e => logger_error MSG_UNEXPECTED [VPath pbix_file; VExn e]).

(** *** [format_duration] *)

Definition format_duration (seconds : float) : string :=
  let minutes := int_of_float (float_floordiv seconds (float_of_int 60)) in
  let secs := int_of_float (float_mod seconds (float_of_int 60)) in
  if (minutes >? 0)%Z
  then str_int minutes ++ "m " ++ str_int secs ++ "s"
  else str_int secs ++ "s".

(** *** [main] *)

(** The command line, once parsed, with its folders as paths. *)
Record Args := mkArgs {
  report_folder : Path;
  pbit_output : Path;
  temp_folder : Path;
  cli_path : Path;
  core_path : Path;
  clean : bool
}.

Definition MSG_COMPLETED := "Completed %s in %s".
Definition MSG_PROGRESS :=
  "Progress: %d/%d files processed (%.1f%%). ETA: %s".
Definition MSG_TOTAL := "Conversion process completed. Total time: %s".
Definition MSG_NO_FILES := "No .pbix files found. Exiting.".

(** The [for] loop of [main], from the state of its counters at the
    start of an iteration; it yields the final [total_time]. *)
Fixpoint main_loop
    (pbix_files : list Path) (output_folder cli_exe core_exe
       report temp : Path) (clean_extract : bool)
    (total_files processed_count : Z) (total_time : float) : M float :=
  match pbix_files with
  | [] => ret total_time
  | pbix_file :: rest =>
      start_time <- time_time ;;
      process_pbix_file pbix_file output_folder cli_exe core_exe
        report temp clean_extract ;;
      end_time <- time_time ;;
      let duration := float_sub end_time start_time in
      let processed_count := (processed_count + 1)%Z in
      let total_time := float_add total_time duration in
      logger_info MSG_COMPLETED
        [VStr (name pbix_file); VStr (format_duration duration)] ;;
      (if (processed_count <? total_files)%Z then
         let avg_time :=
           float_truediv total_time (float_of_int processed_count) in
         let remaining_files := (total_files - processed_count)%Z in
         let eta_seconds :=
           float_mul avg_time (float_of_int remaining_files) in
         logger_info MSG_PROGRESS
           [VInt processed_count; VInt total_files;
            VFloat (float_mul (int_truediv processed_count total_files)
                      (float_of_int 100));
            VStr (format_duration eta_seconds)]
       else ret tt) ;;
      main_loop rest output_folder cli_exe core_exe report temp
        clean_extract total_files processed_count total_time
  end.

Definition main (args : Args) : M unit :=
  let report := report_folder args in
  let output_folder := pbit_output args in
  let temp := temp_folder args in
  let cli_exe := joinname (cli_path args) "pbi-tools.exe" in
  let core_exe := joinname (core_path args) "pbi-tools.core.exe" in
  validate_paths cli_exe core_exe ;;
  pbix_files <- find_pbix_files report ;;
  match pbix_files with
  | [] => logger_warning MSG_NO_FILES []
  | _ :: _ =>
      let total_files := Z.of_nat (length pbix_files) in
      total_time <- main_loop pbix_files output_folder cli_exe core_exe
                      report temp (clean args) total_files 0%Z float_zero ;;
      logger_info MSG_TOTAL [VStr (format_duration total_time)]
  end.

End Converter.

(** ** Observations on a run *)

Section Observations.
Context {ft : FloatType} {fp : PyFloat}.

(** The readings of the clock, in order. *)
Fixpoint clock_readings (tr : Trace) : list float :=
  match tr with
  | [] => []
  | Time t :: tr' => t :: clock_readings tr'
  | _ :: tr' => clock_readings tr'
  end.

(** [main] reads the clock twice per file: the durations it measures. *)
Fixpoint durations (readings : list float) : list float :=
  match readings with
  | start_time :: end_time :: rest =>
      float_sub end_time start_time :: durations rest
  | _ => []
  end.

(** [total_time] after adding the durations [ds] one by one. *)
Definition accumulate (total_time : float) (ds : list float) : float :=
  fold_left float_add ds total_time.

(** The file names of the [Completed] records, in order. *)
Fixpoint completed_names (tr : Trace) : list string :=
  match tr with
  | [] => []
  | Log INFO msg [VStr file_name; VStr _] :: tr' =>
      if String.eqb msg MSG_COMPLETED
      then file_name :: completed_names tr'
      else completed_names tr'
  | _ :: tr' => completed_names tr'
  end.

Definition is_error (ev : Event) : bool :=
  match ev with Log ERROR _ _ => true | _ => false end.

Definition is_warning (ev : Event) : bool :=
  match ev with Log WARNING _ _ => true | _ => false end.

Definition is_rmtree (ev : Event) : bool :=
  match ev with Rmtree _ _ => true | _ => false end.

(** The events a single file can give rise to: log records, directory
    creations, child processes and deletions. *)
Definition is_item_event (ev : Event) : bool :=
  match ev with
  | Log _ _ _ | Mkdir _ _ | Run _ _ | Rmtree _ _ => true
  | PathExists _ _ | Rglob _ _ _ | Time _ => false
  end.

(** The events of the batch loop: those of its files and the readings
    of the clock. *)
Definition is_loop_event (ev : Event) : bool :=
  match ev with
  | Time _ => true
  | _ => is_item_event ev
  end.

(** The progress figures as the specification words them: the
    estimate is the average time per processed file times the number of
    files that remain, the percentage is the processed share times 100. *)
Definition eta_seconds (total_time : float) (processed total_files : Z)
  : float :=
  float_mul (float_truediv total_time (float_of_int processed))
            (float_of_int (total_files - processed)).

Definition percent_complete (processed total_files : Z) : float :=
  float_mul (int_truediv processed total_files) (float_of_int 100).

Definition progress_record (total_files processed : Z) (total_time : float)
  : Event :=
  Log INFO MSG_PROGRESS
    [VInt processed; VInt total_files;
     VFloat (percent_complete processed total_files);
     VStr (format_duration (eta_seconds total_time processed total_files))].

(** What the loop logs after a file: the completion record and, while
    files remain, the progress record. *)
Definition item_report {fl : Flavour} (pbix_file : Path) (duration : float)
    (total_files processed : Z) (total_time : float) : Trace :=
  Log INFO MSG_COMPLETED
    [VStr (PurePath.name pbix_file); VStr (format_duration duration)]
  :: (if processed <? total_files
      then [progress_record total_files processed total_time]
      else []).

(** The events of [main] before its loop, when both executables exist
    and the search finds [found]. *)
Definition setup_events {fl : Flavour} (args : Args) (found : list Path)
  : Trace :=
  [PathExists (PurePath.joinname (cli_path args) "pbi-tools.exe") true;
   PathExists (PurePath.joinname (core_path args) "pbi-tools.core.exe") true;
   Log INFO MSG_SEARCHING [VPath (report_folder args)];
   Rglob (report_folder args) PBIX_PATTERN found;
   Log INFO MSG_FOUND [VInt (Z.of_nat (length found))]].

(** The child process of [tr] whose command has [verb] as its second
    word exited with code 0 and printed [text]. *)
Definition returned (verb text : string) (tr : Trace) : Prop :=
  exists cmd err,
    nth_error cmd 1 = Some verb /\
    In (Run cmd (inr (mkCompleted 0 text err))) tr.

(** The child process of [tr] whose command has [verb] as its second
    word exited with the non-zero code [rc] and printed [text]. *)
Definition failed (verb : string) (rc : Z) (text : string) (tr : Trace)
  : Prop :=
  exists cmd err,
    nth_error cmd 1 = Some verb /\ rc <> 0 /\
    In (Run cmd (inr (mkCompleted rc text err))) tr.

End Observations.

(** ** The logger

    [get_logger] configures the logger of the program.  A handler writes
    to a stream the records at or above its level that its filters
    accept; a filter is modelled by what it reads of a record, its
    level number.  A logger is its own level and handlers, and the
    handlers of its ancestors, which [hasHandlers] also sees and to
    which its records propagate. *)

Inductive Stream := Stdout | Stderr.

Definition levelno (level : Level) : Z :=
  match level with
  | DEBUG => 10
  | INFO => 20
  | WARNING => 30
  | ERROR => 40
  end.

Record Handler := mkHandler {
  h_stream : Stream;
  h_level : Z;
  h_filters : list (Z -> bool)
}.

Record Logger := mkLogger {
  lg_level : Z;
  lg_handlers : list Handler;
  lg_inherited : list Handler
}.

(** [logger.hasHandlers()] *)
Definition hasHandlers (lg : Logger) : bool :=
  match lg_handlers lg ++ lg_inherited lg with
  | [] => false
  | _ :: _ => true
  end.

(** The handler of the debug records: standard error, level [DEBUG],
    and a filter that lets only [DEBUG] records through. *)
Definition debug_handler : Handler :=
  mkHandler Stderr (levelno DEBUG) [fun n => n =? levelno DEBUG].

(** The console handler: standard output, level [INFO]. *)
Definition console_handler : Handler :=
  mkHandler Stdout (levelno INFO) [].

Definition get_logger (level : Z) (lg : Logger) : Logger :=
  let lg := mkLogger level (lg_handlers lg) (lg_inherited lg) in
  if hasHandlers lg then lg
  else mkLogger level (lg_handlers lg ++ [debug_handler; console_handler])
                (lg_inherited lg).

(** A handler writes the records at or above its level that every one
    of its filters accepts. *)
Definition handles (hd : Handler) (n : Z) : bool :=
  (h_level hd <=? n) && forallb (fun accept => accept n) (h_filters hd).

(** The streams a record of the given level is written to, in order:
    none when the logger is not enabled for the level, otherwise one per
    handler that handles it, the logger's own handlers first. *)
Definition destinations (lg : Logger) (level : Level) : list Stream :=
  if lg_level lg <=? levelno level
  then map h_stream
         (filter (fun hd => handles hd (levelno level))
                 (lg_handlers lg ++ lg_inherited lg))
  else [].

(** A logger nobody has configured: level [NOTSET], no handler of its
    own, none on its ancestors. *)
Definition unconfigured : Logger := mkLogger 0 [] [].

(** [logger = get_logger("pbi_converter")], at import. *)
Definition logger : Logger := get_logger (levelno DEBUG) unconfigured.

Definition Stream_eqb (a b : Stream) : bool :=
  match a, b with
  | Stdout, Stdout | Stderr, Stderr => true
  | _, _ => false
  end.

(** The log records of [tr] that the logger of the program writes to
    the stream [s], in order. *)
Definition written_to {ft : FloatType} (s : Stream) (tr : Trace) : Trace :=
  filter (fun ev =>
            match ev with
            | Log level _ _ => existsb (Stream_eqb s) (destinations logger level)
            | _ => false
            end) tr.

Definition is_run {ft : FloatType} (ev : Event) : bool :=
  match ev with Run _ _ => true | _ => false end.

Definition is_progress {ft : FloatType} (ev : Event) : bool :=
  match ev with
  | Log INFO msg _ => String.eqb msg MSG_PROGRESS
  | _ => false
  end.


(** ** Instances used in the examples *)

(** Exact rational arithmetic: floor division, remainder with the sign
    of the divisor, truncation. *)
Definition Qfloordiv (x y : Q) : Q := inject_Z (Qfloor (x / y)).

Definition Qmodulo (x y : Q) : Q := Qred (x - y * Qfloordiv x y).

Definition Qtrunc (x : Q) : Z := Z.quot (Qnum x) (Zpos (Qden x)).

Definition QType : FloatType := {| float := Q |}.

Definition QFloat : @PyFloat QType :=
  @Build_PyFloat QType
    0%Q
    (fun x y => Qred (x + y))
    (fun x y => Qred (x - y))
    (fun x y => Qred (x * y))
    (fun x y => Qred (x / y))
    Qfloordiv
    Qmodulo
    inject_Z
    (fun m n => Qred (inject_Z m / inject_Z n))
    Qtrunc.

(** Windows paths: backslash, and components compared without regard to
    the case of the letters A..Z. *)
Fixpoint lower_string (s : string) : string :=
  match s with
  | EmptyString => EmptyString
  | String c s' => String (PyStr.lower c) (lower_string s')
  end.

Definition Windows : Flavour := {| sep := "\"; normcase := lower_string |}.

(** A platform that follows a script: every path exists, [mkdir_error]
    tells which directories cannot be created, [rglob] finds [files],
    the extraction tool and the compilation tool always answer
    [extract_result] and [compile_result], deletions succeed, and the
    clock gives [readings] one after the other. *)
Definition count_time (h : @Trace QType) : nat :=
  length (clock_readings h).

Definition scripted
    (files : list Path) (mkdir_error : Path -> option Exn)
    (extract_result compile_result : Exn + CompletedProcess)
    (readings : list Q) : @World QType := {|
  os_exists := fun _ _ => true;
  os_rglob := fun _ _ _ => files;
  os_mkdir := fun _ p => mkdir_error p;
  os_run := fun _ cmd =>
    match nth_error cmd 1 with
    | Some verb =>
        if String.eqb verb "extract" then extract_result else compile_result
    | None => compile_result
    end;
  os_rmtree := fun _ _ => None;
  os_time := fun h => nth (count_time h) readings 0%Q
|}.

(** Sample data: a report folder on drive C: and the answers of the two
    tools. *)
Module Sample.
Local Open Scope string_scope.

Definition drive_c (components : list string) : Path :=
  mkPath "C:\" components.

Definition reports : Path := drive_c ["reports"].
Definition pbit : Path := drive_c ["pbit"].
Definition temp : Path := drive_c ["temp"].
Definition cli_exe : Path := drive_c ["tools"; "pbi-tools.exe"].
Definition core_exe : Path := drive_c ["tools"; "pbi-tools.core.exe"].

Definition sales_q1 : Path := drive_c ["reports"; "sales"; "q1.pbix"].
Definition sales_q2 : Path := drive_c ["reports"; "sales"; "q2.pbix"].
Definition hr_staff : Path := drive_c ["reports"; "hr"; "2024"; "staff.pbix"].
Definition elsewhere : Path := mkPath "D:\" ["other"; "x.pbix"].

(** A child process that exits with [code] after printing [stdout]. *)
Definition exited (code : Z) (stdout : string) : Exn + CompletedProcess :=
  inr (mkCompleted code stdout "").

Definition extracted : Exn + CompletedProcess :=
  exited 0 "Extraction complete.".

Definition compiled_output : string :=
  "Compiling...
PBIT file written to:  C:\pbit\sales\q1.pbit  
Done.".

Definition compiled : Exn + CompletedProcess := exited 0 compiled_output.

(** The marker with nothing after it. *)
Definition blank_output : string := "PBIT file written to: ".

Definition no_model_output : string :=
  "The PBIX file does not contain a V3 model.".

Definition not_deserialized_output : string :=
  "Error: the model could not be deserialized.".

Definition no_mkdir_error (p : Path) : option Exn := None.

(** The output folder of the sales reports cannot be created. *)
Definition sales_denied (p : Path) : option Exn :=
  match parts p with
  | [_; "sales"] => Some (OtherException "PermissionError" "Access is denied")
  | _ => None
  end.

(** The clock, one reading per call. *)
Definition readings : list Q := [100; 102; 103; 106; 110; 116]%Q.

Definition healthy (files : list Path) : @World QType :=
  scripted files no_mkdir_error extracted compiled readings.

Definition blank_path_world : @World QType :=
  scripted [sales_q1] no_mkdir_error extracted (exited 0 blank_output)
    readings.

Definition no_model_world : @World QType :=
  scripted [sales_q1] no_mkdir_error extracted (exited 0 no_model_output)
    readings.

Definition not_deserialized_world : @World QType :=
  scripted [sales_q1] no_mkdir_error (exited 1 not_deserialized_output)
    compiled readings.

Definition silent_extraction_world : @World QType :=
  scripted [sales_q1] no_mkdir_error (exited 0 "") compiled readings.

Definition sales_denied_world : @World QType :=
  scripted [sales_q1; hr_staff] sales_denied extracted compiled readings.

Definition sample_args : Args :=
  mkArgs reports pbit temp (drive_c ["tools"]) (drive_c ["tools"]) false.

End Sample.

(** * Properties *)

(** ** Text

    What [strip] and the search return, in terms of the text searched. *)

Module TextFacts.
Import PyStr Re.
Local Open Scope string_scope.

(** Every character of [s] is whitespace. *)
Fixpoint all_space (s : string) : bool :=
  match s with
  | EmptyString => true
  | String c s' => isspace c && all_space s'
  end.

(** No character of [s] is a line feed. *)
Fixpoint one_line (s : string) : bool :=
  match s with
  | EmptyString => true
  | String c s' => negb (Ascii.eqb c newline) && one_line s'
  end.

Fixpoint last_char (s : string) : option ascii :=
  match s with
  | EmptyString => None
  | String c s' =>
      match last_char s' with
      | None => Some c
      | Some d => Some d
      end
  end.

Lemma last_char_cons c c1 r :
  last_char (String c (String c1 r)) = last_char (String c1 r).
Proof. cbn. now destruct (last_char r). Qed.

Lemma lstrip_decompose s :
  exists l, s = l ++ lstrip s /\ all_space l = true.
Proof.
  induction s as [|c s IH]; [now exists ""|].
  cbn [lstrip]. destruct (isspace c) eqn:Hc.
  - destruct IH as (l & Hl & Hs). exists (String c l). cbn.
    now rewrite Hc, Hs, <- Hl.
  - now exists "".
Qed.

Lemma lstrip_head s c r : lstrip s = String c r -> isspace c = false.
Proof.
  induction s as [|c0 s IH]; [discriminate|].
  cbn [lstrip]. destruct (isspace c0) eqn:Hc; [exact IH|].
  now intros [= <- _].
Qed.

Lemma rstrip_decompose s :
  exists r, s = rstrip s ++ r /\ all_space r = true.
Proof.
  induction s as [|c s IH]; [now exists ""|].
  destruct IH as (r & Hr & Hs). cbn [rstrip].
  destruct (rstrip s) as [|c1 r1] eqn:Hstrip.
  - destruct (isspace c) eqn:Hc.
    + exists (String c s). cbn in Hr. subst r. cbn. now rewrite Hc, Hs.
    + exists r. cbn in Hr. subst r. now cbn.
  - exists r. cbn. split; [|exact Hs]. now rewrite Hr at 1.
Qed.

Lemma rstrip_head c s c1 r1 :
  rstrip (String c s) = String c1 r1 -> c1 = c.
Proof.
  cbn [rstrip]. destruct (rstrip s); [destruct (isspace c)|]; congruence.
Qed.

Lemma rstrip_last s c : last_char (rstrip s) = Some c -> isspace c = false.
Proof.
  induction s as [|c0 s IH]; [discriminate|].
  cbn [rstrip]. destruct (rstrip s) as [|c1 r1] eqn:Hstrip.
  - destruct (isspace c0) eqn:Hc; [discriminate|].
    cbn. now intros [= <-].
  - rewrite last_char_cons. exact IH.
Qed.

(** [strip] removes a run of whitespace at each end, and what it
    returns neither starts nor ends with whitespace. *)
Lemma strip_spec s :
  (exists l r,
     s = l ++ strip s ++ r /\ all_space l = true /\ all_space r = true) /\
  (forall c r, strip s = String c r -> isspace c = false) /\
  (forall c, last_char (strip s) = Some c -> isspace c = false).
Proof.
  unfold strip. repeat split.
  - destruct (lstrip_decompose s) as (l & Hl & Hls).
    destruct (rstrip_decompose (lstrip s)) as (r & Hr & Hrs).
    exists l, r. repeat split; try assumption.
    now rewrite <- Hr.
  - intros c r H. destruct (lstrip s) as [|c0 s0] eqn:Hl; [discriminate|].
    apply rstrip_head in H. subst. eapply lstrip_head; eauto.
  - apply rstrip_last.
Qed.

Lemma match_literal_ci_sound lit s rest :
  match_literal_ci lit s = Some rest ->
  exists m, s = m ++ rest /\ lower_string m = lower_string lit.
Proof.
  revert s. induction lit as [|a lit IH]; intros s.
  - cbn. intros [= <-]. now exists "".
  - destruct s as [|b s]; [discriminate|]. cbn [match_literal_ci].
    destruct (Ascii.eqb (lower a) (lower b)) eqn:Hab; [|discriminate].
    intros H. apply IH in H. destruct H as (m & -> & Hm).
    exists (String b m). cbn. apply Ascii.eqb_eq in Hab.
    now rewrite Hm, Hab.
Qed.

Lemma dot_star_spec s :
  one_line (dot_star s) = true /\
  exists rest,
    s = dot_star s ++ rest /\
    (rest = "" \/ exists rest', rest = String newline rest').
Proof.
  induction s as [|c s (Hline & rest & Hs & Hrest)].
  - split; [reflexivity|]. exists "". auto.
  - cbn [dot_star]. destruct (Ascii.eqb c newline) eqn:Hc.
    + split; [reflexivity|]. exists (String c s). split; [reflexivity|].
      right. exists s. apply Ascii.eqb_eq in Hc. now subst.
    + split; [cbn [one_line]; rewrite Hc; exact Hline|].
      exists rest. split; [|exact Hrest].
      cbn [append]. now rewrite <- Hs.
Qed.

(** A match of the search: the text is some prefix, the literal in any
    case, the group up to the end of the line, and the rest. *)
Lemma search_group_sound lit s group1 :
  search_group lit s = Some group1 ->
  one_line group1 = true /\
  exists before m rest,
    s = before ++ m ++ group1 ++ rest /\
    lower_string m = lower_string lit /\
    (rest = "" \/ exists rest', rest = String newline rest').
Proof.
  induction s as [|c s IH]; cbn [search_group].
  - destruct (match_literal_ci lit "") as [after|] eqn:Hm; [|discriminate].
    intros [= <-]. destruct (dot_star_spec after) as (Hline & rest & Hs & Hrest).
    split; [exact Hline|].
    apply match_literal_ci_sound in Hm. destruct Hm as (m & Hm & Hlow).
    exists "", m, rest. cbn. now rewrite Hm, Hs at 1.
  - destruct (match_literal_ci lit (String c s)) as [after|] eqn:Hm.
    + intros [= <-].
      destruct (dot_star_spec after) as (Hline & rest & Hs & Hrest).
      split; [exact Hline|].
      apply match_literal_ci_sound in Hm. destruct Hm as (m & Hm & Hlow).
      exists "", m, rest. cbn. now rewrite Hm, Hs at 1.
    + intros H. apply IH in H.
      destruct H as (Hline & before & m & rest & -> & Hlow & Hrest).
      split; [exact Hline|].
      exists (String c before), m, rest. now cbn.
Qed.

(** No match of the search: the literal matches at no position. *)
Lemma search_group_none lit s :
  search_group lit s = None ->
  forall before rest, s = before ++ rest -> match_literal_ci lit rest = None.
Proof.
  induction s as [|c s IH]; cbn [search_group].
  - destruct (match_literal_ci lit "") eqn:Hm; [discriminate|].
    intros _ [|? ?] rest; cbn; [now intros <-|discriminate].
  - destruct (match_literal_ci lit (String c s)) eqn:Hm; [discriminate|].
    intros H [|c0 before] rest; cbn.
    + now intros <-.
    + intros [= <- ->]. now apply (IH H before rest).
Qed.

End TextFacts.

(** ** More on the text helpers *)

Module TextMore.
Import PyStr Re TextFacts.
Local Open Scope string_scope.

(** The literal matches any text that equals it up to case. *)
Lemma match_literal_ci_complete lit m s :
  lower_string m = lower_string lit ->
  match_literal_ci lit (m ++ s) = Some s.
Proof.
  revert m. induction lit as [|a lit IH]; intros [|b m]; cbn;
    try discriminate; [reflexivity|].
  intros [= Hab Hm]. rewrite Hab, Ascii.eqb_refl. now apply IH.
Qed.

Lemma dot_star_line line rest :
  one_line line = true ->
  (rest = "" \/ exists rest', rest = String newline rest') ->
  dot_star (line ++ rest) = line.
Proof.
  intros Hline Hrest. induction line as [|c line IH]; cbn [append].
  - destruct Hrest as [-> | (rest' & ->)]; [reflexivity|].
    cbn [dot_star]. now rewrite Ascii.eqb_refl.
  - cbn [one_line] in Hline. apply andb_prop in Hline.
    destruct Hline as [Hc Hline]. cbn [dot_star].
    apply negb_true_iff in Hc. rewrite Hc. now rewrite IH.
Qed.

Lemma lstrip_all_space_app l t :
  all_space l = true -> lstrip (l ++ t) = lstrip t.
Proof.
  induction l as [|c l IH]; [reflexivity|]. cbn.
  intros H. apply andb_prop in H. destruct H as [Hc Hl].
  rewrite Hc. now apply IH.
Qed.

Lemma rstrip_all_space r : all_space r = true -> rstrip r = "".
Proof.
  induction r as [|c r IH]; [reflexivity|]. cbn.
  intros H. apply andb_prop in H. destruct H as [Hc Hr].
  now rewrite (IH Hr), Hc.
Qed.

Lemma rstrip_app_space t r :
  all_space r = true -> rstrip (t ++ r) = rstrip t.
Proof.
  intros Hr. induction t as [|c t IH]; cbn [append rstrip].
  - now apply rstrip_all_space.
  - now rewrite IH.
Qed.

(** Blanks around a text that has none of its own at either end are
    what [strip] removes. *)
Lemma strip_padded l path r :
  all_space l = true -> all_space r = true ->
  strip path = path ->
  strip (l ++ path ++ r) = path.
Proof.
  intros Hl Hr Hpath. unfold strip.
  rewrite (lstrip_all_space_app l _ Hl).
  destruct path as [|c p].
  - cbn [append]. destruct (lstrip_decompose r) as (l' & Hl' & _).
    assert (Hall : all_space (lstrip r) = true).
    { clear - Hr. induction r as [|c r IH]; [reflexivity|].
      cbn in *. apply andb_prop in Hr. destruct Hr as [Hc Hr].
      rewrite Hc. now apply IH. }
    now apply rstrip_all_space.
  - assert (Hc : isspace c = false).
    { destruct (strip_spec (String c p)) as (_ & Hhead & _).
      apply (Hhead c p). exact Hpath. }
    assert (Hlpath : lstrip (String c p) = String c p)
      by (cbn; now rewrite Hc).
    unfold strip in Hpath. rewrite Hlpath in Hpath.
    cbn [append lstrip]. rewrite Hc.
    change (String c (p ++ r)) with (String c p ++ r).
    now rewrite (rstrip_app_space _ _ Hr).
Qed.

End TextMore.

(** ** Paths, pipeline and batch *)

Section Properties.
Context {fl : Flavour} {ft : FloatType} {fp : PyFloat} {world : World}.
Import PurePath.

(** ** Paths *)

Lemma is_prefix_app xs ys : is_prefix xs (xs ++ ys) = true.
Proof.
  induction xs as [|x xs IH]; cbn; [reflexivity|].
  now rewrite String.eqb_refl, IH.
Qed.

Lemma skipn_length_app {A} (xs ys : list A) :
  skipn (length xs) (xs ++ ys) = ys.
Proof. induction xs; cbn; auto. Qed.

(** A path built below [root] is relative to it, by the components
    added. *)
Lemma relative_to_joinpath root rel :
  relative_to (root // mkPath "" rel) root = Ok (mkPath "" rel).
Proof.
  unfold relative_to, is_relative_to, joinpath; cbn.
  now rewrite String.eqb_refl, is_prefix_app, skipn_length_app.
Qed.

Lemma relative_to_not_exit p other c : relative_to p other <> SysExit c.
Proof. unfold relative_to. destruct (is_relative_to p other); discriminate. Qed.

Lemma resolve_dirs_not_exit pbix out root tmp c :
  resolve_dirs pbix out root tmp <> SysExit c.
Proof.
  unfold resolve_dirs.
  destruct (relative_to pbix root) eqn:E; try discriminate.
  now apply relative_to_not_exit in E.
Qed.

Lemma resolve_dirs_raise pbix out root tmp e :
  relative_to pbix root = Raise e ->
  resolve_dirs pbix out root tmp = Raise e.
Proof. unfold resolve_dirs. now intros ->. Qed.

Lemma joinpath_relative_inj base xs ys :
  base // mkPath "" xs = base // mkPath "" ys <-> xs = ys.
Proof.
  unfold joinpath; cbn. split; [|now intros ->].
  intros H. injection H as H. now apply app_inv_head in H.
Qed.

Lemma resolve_dirs_below root output_folder temp_root dirs file_name :
  resolve_dirs (root // mkPath "" (dirs ++ [file_name]))
               output_folder root temp_root
  = Ok (output_folder // mkPath "" dirs, temp_root // mkPath "" dirs).
Proof.
  unfold resolve_dirs. rewrite relative_to_joinpath.
  unfold parent; cbn [anchor parts]. now rewrite removelast_last.
Qed.

(** C2. For a file at any depth below the report folder, that is the
    folder joined with directories [dirs] and a file name, the target
    directory is the output folder joined with [dirs] and the extraction
    directory is the temp folder joined with the same [dirs]. *)
Theorem C2_directories_mirror_relative_parent
    root output_folder temp_root dirs file_name :
  resolve_dirs (root // mkPath "" (dirs ++ [file_name]))
               output_folder root temp_root
  = Ok (output_folder // mkPath "" dirs, temp_root // mkPath "" dirs).
Proof.
  unfold resolve_dirs.
  (* the file is relative to the root by [dirs] and its name *)
  rewrite relative_to_joinpath.
  (* the parent of that relative path is [dirs] *)
  unfold parent; cbn [anchor parts].
  rewrite removelast_last.
  reflexivity.
Qed.

(** C6, as the code has it. Two files below the report folder get the
    same target directory exactly when they lie in the same directory,
    and likewise for the extraction directory: files of different
    directories never share one, files of one directory share both. *)
Theorem C6_directories_shared_within_a_folder
    root output_folder temp_root dirs1 name1 dirs2 name2 :
  exists target1 extract1 target2 extract2,
    resolve_dirs (root // mkPath "" (dirs1 ++ [name1]))
                 output_folder root temp_root = Ok (target1, extract1) /\
    resolve_dirs (root // mkPath "" (dirs2 ++ [name2]))
                 output_folder root temp_root = Ok (target2, extract2) /\
    (target1 = target2 <-> dirs1 = dirs2) /\
    (extract1 = extract2 <-> dirs1 = dirs2).
Proof.
  exists (output_folder // mkPath "" dirs1), (temp_root // mkPath "" dirs1),
         (output_folder // mkPath "" dirs2), (temp_root // mkPath "" dirs2).
  repeat split;
    try apply resolve_dirs_below; try (now apply joinpath_relative_inj).
Qed.

(** ** The pipeline of one file

    The proofs run the pipeline symbolically: every answer of the
    platform and every test on a text is a case, and in each case the
    events of the item are an explicit list. *)

Ltac unfold_pipeline :=
  unfold process_pbix_file, process_pbix_file_body, ensure_directories,
    extract_pbix, compile_to_pbit, run_subprocess, parse_pbit_output,
    subprocess_run, shutil_rmtree, mkdir, logger_info, logger_warning,
    logger_error, logger_debug, try_except, bind, lift, emit, ret.

Ltac pipeline_case :=
  match goal with
  | |- context [resolve_dirs ?a ?b ?c ?d] =>
      let E := fresh "Hdirs" in
      destruct (resolve_dirs a b c d) as [[? ?]| |] eqn:E;
      [ | | exfalso; exact (resolve_dirs_not_exit _ _ _ _ _ E) ]
  | |- context [os_mkdir ?h ?p] => destruct (os_mkdir h p) eqn:?
  | |- context [os_run ?h ?c] =>
      destruct (os_run h c) as [[]|[? [|? ?] ?]] eqn:?
  | |- context [os_rmtree ?h ?p] => destruct (os_rmtree h p) eqn:?
  | |- context [(?rc =? 0)%Z] => destruct (Z.eqb_spec rc 0)
  | |- context [PyStr.contains ?a ?b] => destruct (PyStr.contains a b) eqn:?
  | |- context [Re.search_group ?a ?b] => destruct (Re.search_group a b) eqn:?
  | |- context [PyStr.strip ?a] => destruct (PyStr.strip a) eqn:?
  | |- context [if ?b then _ else _] => is_var b; destruct b
  end.

Ltac run_pipeline :=
  unfold_pipeline;
  repeat (pipeline_case;
          cbn [fst snd app cp_returncode cp_stdout cp_stderr]).

(** Membership in an explicit list of events. *)
Ltac in_events :=
  cbn [In]; solve [repeat (first [left; congruence | right])].

Ltac split_in H :=
  cbn [In] in H;
  repeat match type of H with
         | _ \/ _ => destruct H as [H|H]
         end;
  try contradiction; try discriminate H.

(** Reads a premise [returned verb text tr] or [failed verb rc text tr]
    on an explicit [tr]: the child process it speaks of is one of the
    [Run] events of the list. *)
Ltac open_returned :=
  let cmd := fresh "cmd" in
  let err := fresh "err" in
  let Hverb := fresh "Hverb" in
  let Hin := fresh "Hin" in
  intros (cmd & err & Hverb & Hin);
  split_in Hin;
  injection Hin as ? ?; subst;
  try discriminate Hverb.

Ltac open_failed :=
  let cmd := fresh "cmd" in
  let err := fresh "err" in
  let Hverb := fresh "Hverb" in
  let Hrc := fresh "Hrc" in
  let Hin := fresh "Hin" in
  intros (cmd & err & Hverb & Hrc & Hin);
  split_in Hin;
  injection Hin as ? ?; subst;
  try discriminate Hverb; try congruence.

Ltac ends_with n :=
  match goal with
  | |- exists before, ?l = (before ++ _)%list =>
      exists (firstn (length l - n) l); reflexivity
  end.

Lemma search_group_marker_empty : Re.search_group PBIT_MARKER "" = None.
Proof. reflexivity. Qed.

Lemma contains_marker_empty : PyStr.contains NO_V3_MODEL "" = false.
Proof. reflexivity. Qed.

(** The pipeline never lets an exception out. *)
Lemma process_pbix_file_returns pbix out cli core root tmp clean_extract h :
  fst (process_pbix_file pbix out cli core root tmp clean_extract h) = Ok tt.
Proof. run_pipeline; reflexivity. Qed.

(** It emits log records, directory creations, child processes and
    deletions only. *)
Lemma process_pbix_file_events pbix out cli core root tmp clean_extract h :
  forallb is_item_event
    (snd (process_pbix_file pbix out cli core root tmp clean_extract h))
  = true.
Proof. run_pipeline; reflexivity. Qed.

Lemma process_pbix_file_no_completed
    pbix out cli core root tmp clean_extract h :
  completed_names
    (snd (process_pbix_file pbix out cli core root tmp clean_extract h))
  = [].
Proof. run_pipeline; reflexivity. Qed.

(** What the [except] clause of the pipeline does with an exception of
    the [try] block. *)
Lemma process_pbix_file_catches
    pbix out cli core root tmp clean_extract h e body_events :
  process_pbix_file_body pbix out cli core root tmp clean_extract h
  = (Raise e, body_events) ->
  process_pbix_file pbix out cli core root tmp clean_extract h
  = (Ok tt, body_events ++ [Log ERROR MSG_UNEXPECTED [VPath pbix; VExn e]]).
Proof.
  intros H. unfold process_pbix_file, try_except. rewrite H.
  reflexivity.
Qed.

(** A file that does not lie under the report folder: the item ends
    with one error record. *)
Lemma process_pbix_file_outside pbix out cli core root tmp clean_extract h e :
  relative_to pbix root = Raise e ->
  process_pbix_file pbix out cli core root tmp clean_extract h
  = (Ok tt, [Log ERROR MSG_UNEXPECTED [VPath pbix; VExn e]]).
Proof.
  intros H. apply (resolve_dirs_raise pbix out root tmp) in H.
  unfold process_pbix_file, process_pbix_file_body, try_except, bind, lift.
  rewrite H. reflexivity.
Qed.

(** C1, as the code has it. When the extraction tool and the
    compilation tool both return output, the output of the compilation
    has a line with the marker (in any case), and the captured rest of
    that line is not blank, the pipeline reports success: it logs the
    captured text, stripped of surrounding whitespace, as the output
    location, and logs neither a warning nor an error. *)
Theorem C1_success_reports_trimmed_path
    pbix out cli core root tmp clean_extract h
    extract_text compile_text group1 :
  Re.search_group PBIT_MARKER compile_text = Some group1 ->
  PyStr.strip group1 <> ""%string ->
  returned "extract" extract_text
    (snd (process_pbix_file pbix out cli core root tmp clean_extract h)) ->
  extract_text <> ""%string ->
  returned "compile" compile_text
    (snd (process_pbix_file pbix out cli core root tmp clean_extract h)) ->
  In (Log INFO MSG_OUTPUT [VStr (PyStr.strip group1)])
     (snd (process_pbix_file pbix out cli core root tmp clean_extract h)) /\
  forallb (fun ev => negb (is_error ev || is_warning ev))
     (snd (process_pbix_file pbix out cli core root tmp clean_extract h))
  = true.
Proof.
  intros Hsearch Hstrip. unfold returned.
  pose proof search_group_marker_empty as Hempty.
  run_pipeline.
  all: open_returned.
  all: intros Hne; try congruence; open_returned.
  all: try congruence.
  all: split; [ in_events | reflexivity ].
Qed.

(** C3. A compilation output with the missing-model text and without a
    marker line is parsed to a warning and no path; an item whose
    compilation returned such an output logs the two warnings (skipped,
    no file generated) and no error. *)
Theorem C3_missing_model_is_a_warning
    pbix out cli core root tmp clean_extract h compile_text :
  PyStr.contains NO_V3_MODEL compile_text = true ->
  Re.search_group PBIT_MARKER compile_text = None ->
  (forall h0,
     parse_pbit_output compile_text h0
     = (Ok None, [Log WARNING MSG_SKIPPING []])) /\
  (returned "compile" compile_text
     (snd (process_pbix_file pbix out cli core root tmp clean_extract h)) ->
   In (Log WARNING MSG_SKIPPING [])
      (snd (process_pbix_file pbix out cli core root tmp clean_extract h)) /\
   In (Log WARNING MSG_NO_PBIT [VStr (name pbix)])
      (snd (process_pbix_file pbix out cli core root tmp clean_extract h)) /\
   forallb (fun ev => negb (is_error ev))
      (snd (process_pbix_file pbix out cli core root tmp clean_extract h))
   = true).
Proof.
  intros Hmodel Hsearch. split.
  - intros h0. unfold parse_pbit_output, bind, logger_warning, emit, ret.
    rewrite Hsearch, Hmodel. reflexivity.
  - unfold returned.
    pose proof contains_marker_empty as Hempty.
    run_pipeline.
    all: open_returned.
    all: try congruence.
    all: repeat split; first [ in_events | reflexivity ].
Qed.

(** C10. An invocation that exits with code 0 and prints nothing is the
    last thing the item does: no further process is run, nothing is
    deleted, nothing more is logged, and no success is reported. *)
Theorem C10_empty_output_aborts_the_item
    pbix out cli core root tmp clean_extract h cmd err :
  In (Run cmd (inr (mkCompleted 0 "" err)))
     (snd (process_pbix_file pbix out cli core root tmp clean_extract h)) ->
  fst (process_pbix_file pbix out cli core root tmp clean_extract h) = Ok tt /\
  (exists before,
     snd (process_pbix_file pbix out cli core root tmp clean_extract h)
     = (before ++ [Run cmd (inr (mkCompleted 0 "" err))])%list) /\
  (forall p,
     ~ In (Log INFO MSG_OUTPUT [VStr p])
          (snd (process_pbix_file pbix out cli core root tmp clean_extract h))).
Proof.
  run_pipeline.
  all: intros Hin; split; [reflexivity|].
  all: split_in Hin.
  all: injection Hin; intros; subst; try congruence.
  all: split; [ ends_with 1%nat | intros ? Hp; split_in Hp ].
Qed.

(** C7, as the code has it. Whatever happens to an item, the pipeline
    returns normally, so the batch goes on.  An unsupported model found
    at a failed invocation (non-zero exit, the deserialization text in
    its output) is logged as an error with its own message, and as no
    warning; an unsupported model found in the output of a successful
    compilation is logged as a warning, and no error is logged. *)
Theorem C7_unsupported_model_by_stage
    pbix out cli core root tmp clean_extract h :
  fst (process_pbix_file pbix out cli core root tmp clean_extract h) = Ok tt /\
  (forall verb rc text,
     failed verb rc text
       (snd (process_pbix_file pbix out cli core root tmp clean_extract h)) ->
     PyStr.contains MODEL_NOT_DESERIALIZED text = true ->
     In (Log ERROR MSG_MODEL_NOT_SUPPORTED [])
        (snd (process_pbix_file pbix out cli core root tmp clean_extract h)) /\
     forallb (fun ev => negb (is_warning ev))
        (snd (process_pbix_file pbix out cli core root tmp clean_extract h))
     = true) /\
  (forall text,
     returned "compile" text
       (snd (process_pbix_file pbix out cli core root tmp clean_extract h)) ->
     PyStr.contains NO_V3_MODEL text = true ->
     Re.search_group PBIT_MARKER text = None ->
     In (Log WARNING MSG_SKIPPING [])
        (snd (process_pbix_file pbix out cli core root tmp clean_extract h)) /\
     forallb (fun ev => negb (is_error ev))
        (snd (process_pbix_file pbix out cli core root tmp clean_extract h))
     = true).
Proof.
  split; [apply process_pbix_file_returns|].
  pose proof contains_marker_empty as Hempty.
  unfold failed, returned.
  split.
  - intros verb rc text. run_pipeline.
    all: open_failed.
    all: intros Hmodel; try congruence.
    all: split; first [ in_events | reflexivity ].
  - intros text. run_pipeline.
    all: open_returned.
    all: intros Hmodel Hsearch; try congruence.
    all: split; first [ in_events | reflexivity ].
Qed.

(** C9. When the item reports success and the clean option is on, the
    item ends by deleting its extraction directory and logging that it
    did, whether the deletion met an error or not, and the pipeline
    returns normally without an error record.  When the clean option is
    off or the item reports no success, the pipeline deletes nothing. *)
Theorem C9_extraction_directory_cleanup
    pbix out cli core root tmp clean_extract h :
  (forall p,
     In (Log INFO MSG_OUTPUT [VStr p])
        (snd (process_pbix_file pbix out cli core root tmp clean_extract h)) ->
     clean_extract = true ->
     exists target_dir extract_folder deletion_error,
       resolve_dirs pbix out root tmp = Ok (target_dir, extract_folder) /\
       (exists before,
          snd (process_pbix_file pbix out cli core root tmp clean_extract h)
          = (before ++ [Log INFO MSG_OUTPUT [VStr p];
                        Rmtree extract_folder deletion_error;
                        Log INFO MSG_CLEANED [VPath extract_folder]])%list) /\
       fst (process_pbix_file pbix out cli core root tmp clean_extract h)
       = Ok tt /\
       forallb (fun ev => negb (is_error ev))
         (snd (process_pbix_file pbix out cli core root tmp clean_extract h))
       = true) /\
  (clean_extract = false \/
   (forall p,
      ~ In (Log INFO MSG_OUTPUT [VStr p])
           (snd (process_pbix_file pbix out cli core root tmp
                   clean_extract h))) ->
   forallb (fun ev => negb (is_rmtree ev))
     (snd (process_pbix_file pbix out cli core root tmp clean_extract h))
   = true).
Proof.
  split.
  - intros p. run_pipeline.
    all: intros Hin; split_in Hin.
    all: intros Hclean; try discriminate Hclean.
    all: injection Hin as <-.
    all: do 3 eexists; split; [reflexivity|].
    all: split; [ ends_with 3%nat | split; reflexivity ].
  - run_pipeline.
    all: intros [Hclean | Hnone]; try discriminate Hclean; try reflexivity.
    all: exfalso; eapply Hnone; cbn [In];
      solve [repeat (first [left; reflexivity | right])].
Qed.

(** ** The batch loop *)

Lemma clock_readings_app tr1 tr2 :
  clock_readings (tr1 ++ tr2) = clock_readings tr1 ++ clock_readings tr2.
Proof.
  induction tr1 as [|ev tr1 IH]; [reflexivity|].
  destruct ev; cbn; now rewrite ?IH.
Qed.

Lemma completed_names_app tr1 tr2 :
  completed_names (tr1 ++ tr2) = completed_names tr1 ++ completed_names tr2.
Proof.
  induction tr1 as [|ev tr1 IH]; [reflexivity|].
  destruct ev as [[] msg [|[] [|[] []]]| | | | | | ]; cbn; try assumption.
  destruct (String.eqb msg MSG_COMPLETED); cbn; now rewrite ?IH.
Qed.

Lemma item_events_no_clock tr :
  forallb is_item_event tr = true -> clock_readings tr = [].
Proof.
  induction tr as [|ev tr IH]; [reflexivity|].
  destruct ev; cbn; intros H; try discriminate; auto.
Qed.

Lemma main_loop_cons pbix rest out cli core root tmp clean_extract n k T h :
  exists item h',
    let t0 := os_time h in
    let t1 := os_time ((h ++ [Time t0]) ++ item) in
    let T' := float_add T (float_sub t1 t0) in
    process_pbix_file pbix out cli core root tmp clean_extract
      (h ++ [Time t0]) = (Ok tt, item) /\
    main_loop (pbix :: rest) out cli core root tmp clean_extract n k T h
    = (fst (main_loop rest out cli core root tmp clean_extract n (k + 1) T' h'),
       Time t0 :: item ++ Time t1
         :: item_report pbix (float_sub t1 t0) n (k + 1) T'
         ++ snd (main_loop rest out cli core root tmp clean_extract
                   n (k + 1) T' h')).
Proof.
  cbn [main_loop]. unfold bind at 1. unfold time_time at 1.
  cbn zeta. unfold bind at 1.
  pose proof (process_pbix_file_returns pbix out cli core root tmp
                clean_extract ((h ++ [Time (os_time h)]))) as Hret.
  destruct (process_pbix_file pbix out cli core root tmp clean_extract
              (h ++ [Time (os_time h)])) as [r item] eqn:Hitem.
  cbn [fst] in Hret. subst r.
  exists item. 
  unfold bind at 1. unfold time_time at 1. cbn zeta.
  unfold item_report, progress_record, eta_seconds, percent_complete.
  unfold bind, logger_info, emit, ret.
  destruct (k + 1 <? n); cbn [app fst snd].
  all: match goal with
       | |- context [main_loop ?fs ?a ?b ?c ?d ?e ?f ?m ?j ?T' ?H] =>
           exists H; split; [reflexivity|];
           destruct (main_loop fs a b c d e f m j T' H) as [r2 tr2]
       end.
  all: reflexivity.
Qed.

Lemma durations_cons t0 t1 readings :
  durations (t0 :: t1 :: readings) = float_sub t1 t0 :: durations readings.
Proof. reflexivity. Qed.

Lemma item_report_no_clock pbix d n k T :
  clock_readings (item_report pbix d n k T) = [].
Proof. unfold item_report. destruct (k <? n); reflexivity. Qed.

Lemma item_events_loop tr :
  forallb is_item_event tr = true -> forallb is_loop_event tr = true.
Proof.
  induction tr as [|ev tr IH]; [reflexivity|].
  destruct ev; cbn; intros H; try discriminate; auto.
Qed.

Lemma item_report_events pbix d n k T :
  forallb is_loop_event (item_report pbix d n k T) = true.
Proof. unfold item_report. destruct (k <? n); reflexivity. Qed.

Lemma item_report_completed pbix d n k T :
  completed_names (item_report pbix d n k T) = [name pbix].
Proof. unfold item_report. destruct (k <? n); reflexivity. Qed.

(** The loop from any state of its counters: its result is the
    accumulated time, it measures one duration and logs one completion
    record per file, and it logs a progress record after every file
    but the last of the batch. *)
Lemma main_loop_spec files out cli core root tmp clean_extract n :
  forall k T h,
    let r := main_loop files out cli core root tmp clean_extract n k T h in
    let ds := durations (clock_readings (snd r)) in
    fst r = Ok (accumulate T ds) /\
    length ds = length files /\
    completed_names (snd r) = map name files /\
    forallb is_loop_event (snd r) = true /\
    (forall j, (1 <= j <= length files)%nat ->
       k + Z.of_nat j < n ->
       In (progress_record n (k + Z.of_nat j) (accumulate T (firstn j ds)))
          (snd r)).
Proof.
  induction files as [|pbix rest IH]; intros k T h.
  - cbn. repeat split; auto. intros j Hj; lia.
  - destruct (main_loop_cons pbix rest out cli core root tmp
                clean_extract n k T h) as (item & h' & Hitem & Heq).
    cbv zeta in Heq. cbv zeta. rewrite Heq. cbn [fst snd].
    set (t0 := os_time h) in *.
    set (t1 := os_time ((h ++ [Time t0]) ++ item)) in *.
    set (T' := float_add T (float_sub t1 t0)) in *.
    specialize (IH (k + 1) T' h'). cbv zeta in IH.
    destruct IH as (IHfst & IHlen & IHnames & IHev & IHprog).
    pose proof (process_pbix_file_events pbix out cli core root tmp
                  clean_extract (h ++ [Time t0])) as Hev.
    pose proof (process_pbix_file_no_completed pbix out cli core root tmp
                  clean_extract (h ++ [Time t0])) as Hnc.
    rewrite Hitem in Hev, Hnc. cbn [snd] in Hev, Hnc.
    assert (Hread :
      clock_readings
        (Time t0 :: item ++ Time t1
           :: item_report pbix (float_sub t1 t0) n (k + 1) T'
           ++ snd (main_loop rest out cli core root tmp clean_extract
                     n (k + 1) T' h'))
      = t0 :: t1 :: clock_readings
           (snd (main_loop rest out cli core root tmp clean_extract
                   n (k + 1) T' h'))).
    { cbn [clock_readings]. rewrite clock_readings_app.
      rewrite (item_events_no_clock item Hev). cbn [app clock_readings].
      rewrite clock_readings_app, item_report_no_clock. reflexivity. }
    rewrite Hread, durations_cons.
    repeat split.
    + rewrite IHfst. reflexivity.
    + cbn [length]. now rewrite IHlen.
    + cbn [completed_names]. rewrite completed_names_app, Hnc.
      cbn [app completed_names]. rewrite completed_names_app.
      rewrite item_report_completed, IHnames. reflexivity.
    + cbn [forallb is_loop_event]. rewrite forallb_app.
      rewrite (item_events_loop item Hev). cbn [andb forallb is_loop_event].
      rewrite forallb_app, item_report_events. exact IHev.
    + intros j Hj Hlt. cbn [length] in Hj.
      right. apply in_or_app. right. right. apply in_or_app.
      destruct j as [|[|j]]; [lia| |].
      * left. unfold item_report.
        replace (k + Z.of_nat 1) with (k + 1) in * by lia.
        apply Z.ltb_lt in Hlt. rewrite Hlt. right. left. reflexivity.
      * right.
        replace (k + Z.of_nat (S (S j))) with (k + 1 + Z.of_nat (S j))
          in * by lia.
        apply (IHprog (S j)); [lia | exact Hlt].
Qed.

Lemma main_loop_processes_each
    before pbix after out cli core root tmp clean_extract n :
  forall k T h,
  exists h' tr1 tr2,
    snd (main_loop (before ++ pbix :: after) out cli core root tmp
           clean_extract n k T h)
    = tr1 ++ snd (process_pbix_file pbix out cli core root tmp
                    clean_extract h') ++ tr2.
Proof.
  induction before as [|first before IH]; intros k T h.
  - destruct (main_loop_cons pbix after out cli core root tmp
                clean_extract n k T h) as (item & h' & Hitem & Heq).
    cbv zeta in Hitem, Heq. cbn [app].
    rewrite Heq. cbn [snd].
    exists (h ++ [Time (os_time h)]), [Time (os_time h)].
    rewrite Hitem. cbn [snd app]. eexists. 
    reflexivity.
  - destruct (main_loop_cons first (before ++ pbix :: after) out cli core
                root tmp clean_extract n k T h) as (item & h' & Hitem & Heq).
    cbv zeta in Heq.
    change ((first :: before) ++ pbix :: after) with (first :: (before ++ pbix :: after)).
    rewrite Heq. cbn [snd].
    match type of Heq with
    | context [main_loop _ _ _ _ _ _ _ _ ?k' ?T' h'] =>
        destruct (IH k' T' h') as (h'' & tr1 & tr2 & Hrest)
    end.
    rewrite Hrest.
    exists h''.
    match goal with
    | |- exists a b, ?t0 :: ?item ++ ?t1 :: ?rep ++ _ = _ =>
        exists (t0 :: item ++ t1 :: rep ++ tr1), tr2
    end.
    cbn [app]. rewrite <- !app_assoc. cbn [app]. rewrite <- !app_assoc.
    reflexivity.
Qed.


Lemma loop_events_no_rglob tr root pattern found :
  forallb is_loop_event tr = true -> ~ In (Rglob root pattern found) tr.
Proof.
  intros Hall Hin. rewrite forallb_forall in Hall.
  apply Hall in Hin. discriminate Hin.
Qed.


(** C4. Whatever the files and whatever the platform answers, the loop
    runs to its end and logs one completion record per discovered file,
    in discovery order.  Every file of the batch is processed, whatever
    happened to the files before it: its pipeline runs, returns
    normally, and when its [try] block raised an exception the pipeline
    ends with one error record that names the file and the exception. *)
Theorem C4_item_failures_do_not_abort_the_batch
    files out cli core root tmp clean_extract n k T h :
  (exists total_time,
     fst (main_loop files out cli core root tmp clean_extract n k T h)
     = Ok total_time) /\
  completed_names
    (snd (main_loop files out cli core root tmp clean_extract n k T h))
  = map name files /\
  (forall before pbix after,
     files = before ++ pbix :: after ->
     exists h' tr1 tr2,
       snd (main_loop files out cli core root tmp clean_extract n k T h)
       = tr1 ++ snd (process_pbix_file pbix out cli core root tmp
                       clean_extract h') ++ tr2 /\
       fst (process_pbix_file pbix out cli core root tmp clean_extract h')
       = Ok tt /\
       (forall e body_events,
          process_pbix_file_body pbix out cli core root tmp clean_extract h'
          = (Raise e, body_events) ->
          snd (process_pbix_file pbix out cli core root tmp clean_extract h')
          = body_events ++ [Log ERROR MSG_UNEXPECTED [VPath pbix; VExn e]])).
Proof.
  pose proof (main_loop_spec files out cli core root tmp clean_extract
                n k T h) as Hspec.
  cbv zeta in Hspec. destruct Hspec as (Hfst & _ & Hnames & _).
  split; [eexists; exact Hfst|]. split; [exact Hnames|].
  intros before pbix after ->.
  destruct (main_loop_processes_each before pbix after out cli core root
              tmp clean_extract n k T h) as (h' & tr1 & tr2 & Heq).
  exists h', tr1, tr2. split; [exact Heq|].
  split; [apply process_pbix_file_returns|].
  intros e body_events Hbody.
  now rewrite (process_pbix_file_catches _ _ _ _ _ _ _ _ _ _ Hbody).
Qed.

(** C5, as the code has it. A file that does not lie under the report
    folder is a failure of that item only: its pipeline logs one error
    record naming the file and the [ValueError], and returns normally;
    the loop then logs the completion of the file and goes on with the
    files that remain. *)
Theorem C5_file_outside_root_fails_the_item_only
    pbix rest out cli core root tmp clean_extract n k T h e :
  relative_to pbix root = Raise e ->
  (forall h0,
     process_pbix_file pbix out cli core root tmp clean_extract h0
     = (Ok tt, [Log ERROR MSG_UNEXPECTED [VPath pbix; VExn e]])) /\
  exists t0 t1 h',
    let T' := float_add T (float_sub t1 t0) in
    main_loop (pbix :: rest) out cli core root tmp clean_extract n k T h
    = (fst (main_loop rest out cli core root tmp clean_extract
              n (k + 1) T' h'),
       [Time t0; Log ERROR MSG_UNEXPECTED [VPath pbix; VExn e]; Time t1]
       ++ item_report pbix (float_sub t1 t0) n (k + 1) T'
       ++ snd (main_loop rest out cli core root tmp clean_extract
                 n (k + 1) T' h')).
Proof.
  intros Hrel. split.
  - intros h0. now apply process_pbix_file_outside.
  - destruct (main_loop_cons pbix rest out cli core root tmp clean_extract
                n k T h) as (item & h' & Hitem & Heq).
    cbv zeta in Hitem, Heq.
    rewrite (process_pbix_file_outside _ out cli core _ tmp clean_extract
               _ _ Hrel) in Hitem.
    injection Hitem as <-.
    eexists _, _, h'. cbv zeta. rewrite Heq. reflexivity.
Qed.

(** The runs of [main]: a missing executable ends the run with exit
    status 1 before anything else happens; an empty search ends it with
    a warning; otherwise the loop runs and the total time is logged. *)
Lemma main_cases args h :
  let cli_exe := joinname (cli_path args) "pbi-tools.exe" in
  let core_exe := joinname (core_path args) "pbi-tools.core.exe" in
  main args h
    = (SysExit 1, [PathExists cli_exe false;
                   Log ERROR MSG_CLI_NOT_FOUND [VPath cli_exe]]) \/
  main args h
    = (SysExit 1, [PathExists cli_exe true; PathExists core_exe false;
                   Log ERROR MSG_CORE_NOT_FOUND [VPath core_exe]]) \/
  main args h
    = (Ok tt, setup_events args [] ++ [Log WARNING MSG_NO_FILES []]) \/
  exists found h' total loop_events,
    found <> [] /\
    main_loop found (pbit_output args) cli_exe core_exe (report_folder args)
      (temp_folder args) (clean args) (Z.of_nat (length found)) 0 float_zero h'
    = (Ok total, loop_events) /\
    main args h
    = (Ok tt, setup_events args found ++ loop_events
              ++ [Log INFO MSG_TOTAL [VStr (format_duration total)]]).
Proof.
  cbv zeta.
  set (result := main args h).
  assert (Hresult : main args h = result) by reflexivity.
  clearbody result. revert Hresult.
  unfold main, validate_paths, find_pbix_files, path_exists, rglob,
    logger_info, logger_warning, logger_error, sys_exit, setup_events,
    bind, emit, ret.
  destruct (os_exists h _) eqn:Hcli; cbn [negb fst snd app];
    [|intros <-; left; reflexivity].
  destruct (os_exists _ (joinname (core_path args) _)) eqn:Hcore;
    cbn [negb fst snd app]; [|intros <-; right; left; reflexivity].
  destruct (os_rglob _ _ _) as [|pbix found] eqn:Hfound; cbn [fst snd app].
  - intros <-. right; right; left. reflexivity.
  - match goal with
    | |- context [main_loop ?fs ?a ?b ?c ?d ?e ?f ?m ?j ?T ?H] =>
        pose proof (main_loop_spec fs a b c d e f m j T H) as Hspec;
        destruct (main_loop fs a b c d e f m j T H) as [r loop_events] eqn:Hloop
    end.
    cbv zeta in Hspec. destruct Hspec as [Hfst _]. cbn [fst snd] in Hfst.
    subst r. cbn [fst snd app]. intros <-. right; right; right.
    exists (pbix :: found). eexists _, _, _.
    split; [discriminate|]. split; [exact Hloop|].
    reflexivity.
Qed.

(** C8. In a run of [main] that discovers the files [files], with the
    durations [ds] measured by the clock (one per file, in order): after
    every file [k] but the last, the progress record carries [k], the
    number of files, the percentage [(k / n) * 100] and the estimate
    [(d1 + ... + dk) / k * (n - k)]; and when the batch is not empty the
    last record carries the total [d1 + ... + dn].  Sums run from 0.0,
    left to right, in the arithmetic of the program. *)
Theorem C8_progress_accounting args h files :
  In (Rglob (report_folder args) PBIX_PATTERN files) (snd (main args h)) ->
  let n := Z.of_nat (length files) in
  let ds := durations (clock_readings (snd (main args h))) in
  length ds = length files /\
  (forall k, (1 <= k < length files)%nat ->
     In (progress_record n (Z.of_nat k) (accumulate float_zero (firstn k ds)))
        (snd (main args h))) /\
  (files <> [] ->
   In (Log INFO MSG_TOTAL [VStr (format_duration (accumulate float_zero ds))])
      (snd (main args h))).
Proof.
  cbv zeta.
  destruct (main_cases args h)
    as [H|[H|[H|(found & h' & total & loop_events & Hne & Hloop & H)]]];
    cbv zeta in H; rewrite H; cbn [snd]; intros Hin.
  - split_in Hin.
  - split_in Hin.
  - unfold setup_events in Hin. cbn [app] in Hin. split_in Hin.
    injection Hin as <-.
    repeat split; try reflexivity.
    + intros k Hk. cbn in Hk. lia.
    + congruence.
  - pose proof (main_loop_spec found (pbit_output args)
                  (joinname (cli_path args) "pbi-tools.exe")
                  (joinname (core_path args) "pbi-tools.core.exe")
                  (report_folder args) (temp_folder args) (clean args)
                  (Z.of_nat (length found)) 0 float_zero h') as Hspec.
    cbv zeta in Hspec. rewrite Hloop in Hspec. cbn [fst snd] in Hspec.
    destruct Hspec as (Htotal & Hlen & _ & Hevents & Hprogress).
    assert (files = found) as ->.
    { unfold setup_events in Hin. cbn [app] in Hin.
      cbn [In] in Hin.
      repeat match type of Hin with
             | _ \/ _ => destruct Hin as [Hin|Hin]; try discriminate Hin
             end.
      - now injection Hin.
      - apply in_app_or in Hin. destruct Hin as [Hin|Hin].
        + now apply loop_events_no_rglob in Hin.
        + split_in Hin. }
    assert (Hread :
      clock_readings
        (setup_events args found ++ loop_events
           ++ [Log INFO MSG_TOTAL [VStr (format_duration total)]])
      = clock_readings loop_events).
    { rewrite !clock_readings_app. cbn. now rewrite app_nil_r. }
    rewrite Hread. injection Htotal as Htotal.
    repeat split.
    + exact Hlen.
    + intros k Hk. apply in_or_app. right. apply in_or_app. left.
      specialize (Hprogress k). rewrite Z.add_0_l in Hprogress.
      apply Hprogress; lia.
    + intros _. apply in_or_app. right. apply in_or_app. right.
      rewrite <- Htotal. left. reflexivity.
Qed.

(** ** Further properties

    The logger, the tool invoker, the parser, the stages of the pipeline
    and the runs of [main]. *)

(** *** [get_logger] *)

(** X1. Once [get_logger] has configured a logger that had no handler,
    of its own or inherited, a [DEBUG] record is written to standard
    error and nowhere else, and a record of any other level, errors
    included, is written to standard output and nowhere else. *)
Theorem get_logger_routes_by_level lg level :
  lg_handlers lg = [] -> lg_inherited lg = [] ->
  destinations (get_logger (levelno DEBUG) lg) level
  = [match level with DEBUG => Stderr | _ => Stdout end].
Proof.
  destruct lg as [l hs inh]. cbn [lg_handlers lg_inherited].
  intros -> ->. now destruct level.
Qed.

(** X2. Calling [get_logger] again adds no handler: a second call
    leaves the logger as a single call with the later level does. *)
Theorem get_logger_adds_handlers_once l1 l2 lg :
  get_logger l2 (get_logger l1 lg) = get_logger l2 lg /\
  lg_handlers (get_logger l2 (get_logger l1 lg))
  = lg_handlers (get_logger l1 lg).
Proof.
  destruct lg as [l [|hd hs] [|ih inh]]; split; reflexivity.
Qed.

(** *** [run_subprocess] *)

(** X3. [run_subprocess] never raises.  It returns the standard output
    of the child process exactly when the process ran and exited with
    code 0, and nothing otherwise; it logs one error record when it
    returns nothing and none when it returns the output. *)
Theorem run_subprocess_result command description h :
  exists result events,
    run_subprocess command description h = (Ok result, events) /\
    (forall text,
       result = Some text <->
       exists err, os_run h command = inr (mkCompleted 0 text err)) /\
    length (filter is_error events)
    = match result with Some _ => 0%nat | None => 1%nat end.
Proof.
  unfold run_subprocess, subprocess_run, try_except, bind, ret,
    logger_error, logger_debug, emit.
  destruct (os_run h command) as [[]|[rc out err]] eqn:Hrun;
    cbn [cp_returncode cp_stdout cp_stderr fst snd app].
  4: destruct (Z.eqb_spec rc 0) as [->|Hrc].
  all: try destruct (PyStr.contains MODEL_NOT_DESERIALIZED _).
  all: cbn [fst snd app]; do 2 eexists; split; [reflexivity|].
  all: split; [|reflexivity].
  all: intros text; split;
    [ intros Htext; try discriminate Htext
    | intros (err' & Herr); try discriminate Herr ].
  - injection Htext as <-. now exists err.
  - now injection Herr as <- _.
  - injection Herr as Hrc' _ _. contradiction.
  - injection Herr as Hrc' _ _. contradiction.
Qed.

(** X4. When the child process exits with a non-zero code, standard
    output receives one error record with a fixed message and no
    argument; the command line and the captured output of the tool are
    in the debug record only, which goes to standard error. *)
Theorem run_subprocess_details_on_stderr command description h rc out err :
  os_run h command = inr (mkCompleted rc out err) ->
  rc <> 0 ->
  written_to Stdout (snd (run_subprocess command description h))
  = [Log ERROR (if PyStr.contains MODEL_NOT_DESERIALIZED out
                then MSG_MODEL_NOT_SUPPORTED else MSG_PROCESSING_ERROR) []] /\
  written_to Stderr (snd (run_subprocess command description h))
  = [Log DEBUG MSG_SUBPROCESS_DEBUG
       [VStr description; VInt rc;
        VExn (CalledProcessError rc command out err);
        VStr (PyStr.join " " command); VStr out; VStr err]].
Proof.
  intros Hrun Hrc.
  unfold run_subprocess, subprocess_run, try_except, bind, ret,
    logger_error, logger_debug, emit.
  rewrite Hrun. cbn [cp_returncode cp_stdout cp_stderr].
  destruct (Z.eqb_spec rc 0) as [->|_]; [contradiction|].
  destruct (PyStr.contains MODEL_NOT_DESERIALIZED out); split; reflexivity.
Qed.

(** *** [parse_pbit_output] *)

(** X5. A line made of the marker, in any case, and a path with blanks
    around it parses back to that path, without a log record: whatever
    follows the end of the line, further marker lines and the
    missing-model text included, is not looked at. *)
Theorem parse_pbit_output_round_trip m l path r rest h :
  lower_string m = lower_string PBIT_MARKER ->
  TextFacts.all_space l = true -> TextFacts.all_space r = true ->
  TextFacts.one_line (l ++ path ++ r)%string = true ->
  PyStr.strip path = path ->
  (rest = ""%string \/ exists rest', rest = String PyStr.newline rest') ->
  parse_pbit_output (m ++ (l ++ path ++ r) ++ rest)%string h
  = (Ok (Some path), []).
Proof.
  intros Hm Hl Hr Hline Hpath Hrest. unfold parse_pbit_output.
  assert (Hsearch :
    Re.search_group PBIT_MARKER (m ++ (l ++ path ++ r) ++ rest)%string
    = Some (l ++ path ++ r)%string).
  { destruct m as [|b m']; [discriminate Hm|].
    cbn [append Re.search_group].
    change (String b (m' ++ (l ++ path ++ r) ++ rest)%string)
      with (String b m' ++ ((l ++ path ++ r) ++ rest))%string.
    rewrite (TextMore.match_literal_ci_complete _ _ _ Hm).
    now rewrite (TextMore.dot_star_line _ _ Hline Hrest). }
  rewrite Hsearch. unfold ret.
  now rewrite (TextMore.strip_padded _ _ _ Hl Hr Hpath).
Qed.

(** *** [process_pbix_file] *)

(** X6. When the compilation returns an output that is not empty and
    has neither a marker line nor the missing-model text, the item logs
    the parse
    error, then the warning that no file was generated; it reports no
    output location and deletes nothing. *)
Theorem unrecognised_output_is_a_parse_error
    pbix out cli core root tmp clean_extract h compile_text :
  compile_text <> ""%string ->
  Re.search_group PBIT_MARKER compile_text = None ->
  PyStr.contains NO_V3_MODEL compile_text = false ->
  returned "compile" compile_text
    (snd (process_pbix_file pbix out cli core root tmp clean_extract h)) ->
  (exists before,
     snd (process_pbix_file pbix out cli core root tmp clean_extract h)
     = (before ++ [Log ERROR MSG_PARSE_FAILED [];
                   Log WARNING MSG_NO_PBIT [VStr (name pbix)]])%list) /\
  forallb (fun ev => negb (is_rmtree ev))
    (snd (process_pbix_file pbix out cli core root tmp clean_extract h))
  = true /\
  (forall p,
     ~ In (Log INFO MSG_OUTPUT [VStr p])
          (snd (process_pbix_file pbix out cli core root tmp clean_extract h))).
Proof.
  intros Hne Hsearch Hmodel. unfold returned.
  run_pipeline.
  all: open_returned.
  all: try congruence.
  all: split; [ends_with 2%nat|].
  all: split; [reflexivity|].
  all: intros ? Hp; split_in Hp.
Qed.

(** X7. No child process runs before the four directories exist: when
    the item runs a process at all, the item started by creating, with
    success and in this order, the output folder, the target directory,
    the extraction directory and the temp folder. *)
Theorem directories_are_created_before_any_process
    pbix out cli core root tmp clean_extract h cmd result :
  In (Run cmd result)
     (snd (process_pbix_file pbix out cli core root tmp clean_extract h)) ->
  exists target_dir extract_folder rest,
    resolve_dirs pbix out root tmp = Ok (target_dir, extract_folder) /\
    snd (process_pbix_file pbix out cli core root tmp clean_extract h)
    = [Log INFO (PyStr.repeat "-" 70) []; Log INFO MSG_PROCESSING [VPath pbix];
       Mkdir out None; Mkdir target_dir None; Mkdir extract_folder None;
       Mkdir tmp None] ++ rest /\
    forallb (fun ev => match ev with Mkdir _ _ => false | _ => true end) rest
    = true.
Proof.
  run_pipeline.
  all: intros Hin; split_in Hin.
  all: do 3 eexists; split; [reflexivity|]; split; reflexivity.
Qed.

(** X8. A directory that cannot be created ends the item: the exception
    is logged as an error naming the file, right after the failed
    creation, and the item runs no process and deletes nothing. *)
Theorem mkdir_failure_ends_the_item
    pbix out cli core root tmp clean_extract h p e :
  In (Mkdir p (Some e))
     (snd (process_pbix_file pbix out cli core root tmp clean_extract h)) ->
  (exists before,
     snd (process_pbix_file pbix out cli core root tmp clean_extract h)
     = before ++ [Mkdir p (Some e);
                  Log ERROR MSG_UNEXPECTED [VPath pbix; VExn e]]) /\
  forallb (fun ev => negb (is_run ev || is_rmtree ev))
    (snd (process_pbix_file pbix out cli core root tmp clean_extract h))
  = true.
Proof.
  run_pipeline.
  all: intros Hin; split_in Hin.
  all: injection Hin as <- <-.
  all: split; [ends_with 2%nat | reflexivity].
Qed.

(** X9. An item runs at most two processes.  The compilation runs only
    right after an extraction that exited with code 0 and printed
    something, and it reads the folder the extraction wrote to: the
    third word of its command is the fifth word of the extraction's. *)
Theorem compilation_follows_a_successful_extraction
    pbix out cli core root tmp clean_extract h :
  (length (filter is_run
             (snd (process_pbix_file pbix out cli core root tmp
                     clean_extract h))) <= 2)%nat /\
  (forall cmd result,
     In (Run cmd result)
        (snd (process_pbix_file pbix out cli core root tmp clean_extract h)) ->
     nth_error cmd 1 = Some "compile"%string ->
     exists before after extract_cmd text err,
       snd (process_pbix_file pbix out cli core root tmp clean_extract h)
       = before ++ Run extract_cmd (inr (mkCompleted 0 text err))
                :: Run cmd result :: after /\
       nth_error extract_cmd 1 = Some "extract"%string /\
       text <> ""%string /\
       nth_error extract_cmd 4 = nth_error cmd 2).
Proof.
  split.
  - run_pipeline; cbn; lia.
  - intros cmd result. run_pipeline.
    all: intros Hin; split_in Hin.
    all: injection Hin as <- <-.
    all: intros Hverb; try discriminate Hverb; subst.
    all: match goal with
         | |- exists before after, _ /\ ?l = _ /\ _ => idtac
         | |- exists before after extract_cmd text err, ?l = _ /\ _ =>
             exists (firstn 6 l), (skipn 8 l)
         end.
    all: do 3 eexists; split; [reflexivity|].
    all: repeat split; try reflexivity; try discriminate; congruence.
Qed.

Ltac pipeline_cases :=
  repeat (pipeline_case;
          cbn [fst snd app cp_returncode cp_stdout cp_stderr]).

Lemma joinpath_nil p : p // mkPath "" [] = p.
Proof. destruct p as [a t]. unfold joinpath. cbn. now rewrite app_nil_r. Qed.

(** X10. For a file that lies directly in the report folder, the target
    directory is the output folder and the extraction directory is the
    temp folder itself; so a successful conversion with the clean
    option deletes the whole temp folder. *)
Theorem cleaning_a_top_level_file_deletes_the_temp_folder
    root out cli core tmp file_name h p :
  In (Log INFO MSG_OUTPUT [VStr p])
     (snd (process_pbix_file (root // mkPath "" [file_name]) out cli core
             root tmp true h)) ->
  resolve_dirs (root // mkPath "" [file_name]) out root tmp = Ok (out, tmp) /\
  exists deletion_error,
    In (Rmtree tmp deletion_error)
       (snd (process_pbix_file (root // mkPath "" [file_name]) out cli core
               root tmp true h)).
Proof.
  pose proof (resolve_dirs_below root out tmp [] file_name) as Hd.
  rewrite !joinpath_nil in Hd. cbn [app] in Hd.
  unfold_pipeline. rewrite Hd. pipeline_cases.
  all: intros Hin; split_in Hin.
  all: split; [reflexivity|].
  all: eexists; cbn [In]; solve [repeat (first [left; reflexivity | right])].
Qed.

(** X11. The directories computed for a file lie under the roots they
    mirror into: the target directory under the output folder, the
    extraction directory under the temp folder.  The computation can
    only fail with a [ValueError]. *)
Theorem resolve_dirs_stays_under_the_roots pbix out root tmp :
  (forall target_dir extract_folder,
     resolve_dirs pbix out root tmp = Ok (target_dir, extract_folder) ->
     is_relative_to target_dir out = true /\
     is_relative_to extract_folder tmp = true) /\
  (forall e,
     resolve_dirs pbix out root tmp = Raise e -> exists msg, e = ValueError msg).
Proof.
  unfold resolve_dirs, relative_to.
  destruct (is_relative_to pbix root); split.
  - intros t x [= <- <-]. unfold is_relative_to, joinpath, parent.
    cbn [anchor parts]. now rewrite !String.eqb_refl, !is_prefix_app.
  - discriminate.
  - discriminate.
  - intros e [= <-]. eexists; reflexivity.
Qed.

(** *** [main] *)


(** What a run of [main] that searched for files looks like. *)
Lemma main_discovered args h files :
  In (Rglob (report_folder args) PBIX_PATTERN files) (snd (main args h)) ->
  (files = [] /\
   main args h
   = (Ok tt, setup_events args [] ++ [Log WARNING MSG_NO_FILES []])) \/
  (files <> [] /\
   exists h' total loop_events,
     main_loop files (pbit_output args)
       (joinname (cli_path args) "pbi-tools.exe")
       (joinname (core_path args) "pbi-tools.core.exe")
       (report_folder args) (temp_folder args) (clean args)
       (Z.of_nat (length files)) 0 float_zero h'
     = (Ok total, loop_events) /\
     main args h
     = (Ok tt, setup_events args files ++ loop_events
               ++ [Log INFO MSG_TOTAL [VStr (format_duration total)]])).
Proof.
  destruct (main_cases args h)
    as [H|[H|[H|(found & h' & total & loop_events & Hne & Hloop & H)]]];
    cbv zeta in H; rewrite H; cbn [snd]; intros Hin.
  - split_in Hin.
  - split_in Hin.
  - unfold setup_events in Hin. cbn [app] in Hin. split_in Hin.
    injection Hin as <-. left. split; reflexivity.
  - right.
    assert (files = found) as ->.
    { pose proof (main_loop_spec found (pbit_output args)
                    (joinname (cli_path args) "pbi-tools.exe")
                    (joinname (core_path args) "pbi-tools.core.exe")
                    (report_folder args) (temp_folder args) (clean args)
                    (Z.of_nat (length found)) 0 float_zero h') as Hspec.
      cbv zeta in Hspec. rewrite Hloop in Hspec. cbn [fst snd] in Hspec.
      destruct Hspec as (_ & _ & _ & Hevents & _).
      unfold setup_events in Hin. cbn [app In] in Hin.
      repeat match type of Hin with
             | _ \/ _ => destruct Hin as [Hin|Hin]; try discriminate Hin
             end.
      - now injection Hin.
      - apply in_app_or in Hin. destruct Hin as [Hin|Hin].
        + now apply loop_events_no_rglob in Hin.
        + split_in Hin. }
    split; [exact Hne|]. now exists h', total, loop_events.
Qed.


(** X13. When the search finds no file, [main] logs a warning and
    returns normally: it reads no clock, processes nothing and logs no
    total time. *)
Theorem main_without_files args h :
  In (Rglob (report_folder args) PBIX_PATTERN []) (snd (main args h)) ->
  main args h
  = (Ok tt, setup_events args [] ++ [Log WARNING MSG_NO_FILES []]).
Proof.
  intros Hin. destruct (main_discovered args h [] Hin) as [[_ H]|[Hne _]].
  - exact H.
  - now contradiction Hne.
Qed.

Lemma process_pbix_file_no_progress
    pbix out cli core root tmp clean_extract h :
  filter is_progress
    (snd (process_pbix_file pbix out cli core root tmp clean_extract h))
  = [].
Proof. run_pipeline; reflexivity. Qed.

Lemma item_report_progress pbix d n k T :
  filter is_progress (item_report pbix d n k T)
  = if k <? n then [progress_record n k T] else [].
Proof. unfold item_report. destruct (k <? n); reflexivity. Qed.

(** The loop, when the counter and the files that remain add up to the
    total: two readings of the clock per file, and a progress record
    after every file but the last. *)
Lemma main_loop_counts files out cli core root tmp clean_extract n :
  forall k T h,
    n = k + Z.of_nat (length files) ->
    let tr := snd (main_loop files out cli core root tmp clean_extract
                     n k T h) in
    length (clock_readings tr) = (2 * length files)%nat /\
    length (filter is_progress tr) = pred (length files).
Proof.
  induction files as [|pbix rest IH]; intros k T h Hn; cbv zeta.
  - split; reflexivity.
  - destruct (main_loop_cons pbix rest out cli core root tmp
                clean_extract n k T h) as (item & h' & Hitem & Heq).
    cbv zeta in Hitem, Heq. rewrite Heq. cbn [snd].
    pose proof (process_pbix_file_events pbix out cli core root tmp
                  clean_extract (h ++ [Time (os_time h)])) as Hev.
    pose proof (process_pbix_file_no_progress pbix out cli core root tmp
                  clean_extract (h ++ [Time (os_time h)])) as Hnp.
    rewrite Hitem in Hev, Hnp. cbn [snd] in Hev, Hnp.
    cbn [length] in Hn.
    match type of Heq with
    | context [main_loop rest _ _ _ _ _ _ _ ?k' ?T' h'] =>
        destruct (IH k' T' h' ltac:(lia)) as [IHclock IHprog]
    end.
    split.
    + cbn [clock_readings]. rewrite clock_readings_app.
      rewrite (item_events_no_clock item Hev). cbn [app clock_readings].
      rewrite clock_readings_app, item_report_no_clock. cbn [app length].
      rewrite IHclock. lia.
    + cbn [filter is_progress]. rewrite filter_app, Hnp. cbn [app filter].
      cbn [is_progress]. rewrite filter_app, item_report_progress.
      rewrite length_app, IHprog.
      destruct rest as [|next rest].
      * replace (k + 1 <? n) with false; [reflexivity|].
        symmetry. apply Z.ltb_ge. cbn in Hn. lia.
      * replace (k + 1 <? n) with true; [reflexivity|].
        symmetry. apply Z.ltb_lt. cbn [length] in Hn. lia.
Qed.

(** X14. In a run of [main] that found the files [files], the record
    of the search carries their number, one completion record per file
    is logged, in the order of the search, and the clock is read twice
    per file. *)
Theorem main_processes_what_it_found args h files :
  In (Rglob (report_folder args) PBIX_PATTERN files) (snd (main args h)) ->
  In (Log INFO MSG_FOUND [VInt (Z.of_nat (length files))])
     (snd (main args h)) /\
  completed_names (snd (main args h)) = map name files /\
  length (clock_readings (snd (main args h))) = (2 * length files)%nat.
Proof.
  intros Hin.
  destruct (main_discovered args h files Hin)
    as [[-> H]|[Hne (h' & total & loop_events & Hloop & H)]];
    rewrite H; cbn [snd].
  - repeat split. unfold setup_events. cbn. tauto.
  - pose proof (main_loop_spec files (pbit_output args)
                  (joinname (cli_path args) "pbi-tools.exe")
                  (joinname (core_path args) "pbi-tools.core.exe")
                  (report_folder args) (temp_folder args) (clean args)
                  (Z.of_nat (length files)) 0 float_zero h') as Hspec.
    pose proof (main_loop_counts files (pbit_output args)
                  (joinname (cli_path args) "pbi-tools.exe")
                  (joinname (core_path args) "pbi-tools.core.exe")
                  (report_folder args) (temp_folder args) (clean args)
                  (Z.of_nat (length files)) 0 float_zero h' eq_refl)
      as Hcount.
    cbv zeta in Hspec, Hcount. rewrite Hloop in Hspec, Hcount.
    cbn [fst snd] in Hspec, Hcount.
    destruct Hspec as (_ & _ & Hnames & _). destruct Hcount as [Hclock _].
    repeat split.
    + unfold setup_events. cbn. tauto.
    + rewrite !completed_names_app. cbn. now rewrite app_nil_r.
    + rewrite !clock_readings_app. cbn. now rewrite app_nil_r.
Qed.

(** X15. A run of [main] that found [n] files logs [n - 1] progress
    records: none after the last file, and none at all for a single
    file or for no file. *)
Theorem main_progress_record_count args h files :
  In (Rglob (report_folder args) PBIX_PATTERN files) (snd (main args h)) ->
  length (filter is_progress (snd (main args h))) = pred (length files).
Proof.
  intros Hin.
  destruct (main_discovered args h files Hin)
    as [[-> H]|[Hne (h' & total & loop_events & Hloop & H)]];
    rewrite H; cbn [snd].
  - reflexivity.
  - pose proof (main_loop_counts files (pbit_output args)
                  (joinname (cli_path args) "pbi-tools.exe")
                  (joinname (core_path args) "pbi-tools.core.exe")
                  (report_folder args) (temp_folder args) (clean args)
                  (Z.of_nat (length files)) 0 float_zero h' eq_refl)
      as Hcount.
    cbv zeta in Hcount. rewrite Hloop in Hcount. cbn [snd] in Hcount.
    destruct Hcount as [_ Hprog].
    rewrite !filter_app. cbn. now rewrite app_nil_r.
Qed.

End Properties.

(** * Concrete runs

    Windows paths, exact rational arithmetic and the scripted platforms
    of [Sample]. *)

Module Runs.
Import Sample.

#[local] Existing Instance Windows.
#[local] Existing Instance QType.
#[local] Existing Instance QFloat.

Definition pbit_sales : Path := drive_c ["pbit"; "sales"]%string.
Definition temp_sales : Path := drive_c ["temp"; "sales"]%string.

(** The events of an item up to its first child process. *)
Definition prologue (pbix target_dir extract_folder : Path) : Trace :=
  [Log INFO (PyStr.repeat "-" 70) []; Log INFO MSG_PROCESSING [VPath pbix];
   Mkdir pbit None; Mkdir target_dir None; Mkdir extract_folder None;
   Mkdir temp None].

Definition q1_extract : list string :=
  extract_command cli_exe sales_q1 temp_sales.

Definition q1_compile : list string :=
  compile_command core_exe temp_sales pbit_sales.

(** The pipeline of one file on each platform, with the clean option. *)
Definition run_q1 (world : World) : Outcome unit * Trace :=
  process_pbix_file sales_q1 pbit cli_exe core_exe reports temp true [].

Definition not_in_subpath : Exn :=
  ValueError "D:\other\x.pbix is not in the subpath of C:\reports".

(** The loop over a file outside the report folder and a file inside. *)
Definition run_outside_then_q1 : Outcome float * Trace :=
  main_loop (world := healthy []) [elsewhere; sales_q1]
    pbit cli_exe core_exe reports temp false 2 0 float_zero [].

Definition three_files : list Path := [sales_q1; sales_q2; hr_staff].

Definition run_three : Outcome unit * Trace :=
  main (world := healthy three_files) sample_args [].

(** An event is in an explicit list of events. *)
Ltac find_event :=
  cbn [In app prologue snd];
  solve [repeat (first [left; reflexivity | right])].

(** A child process of an explicit list of events returned a text. *)
Ltac find_returned :=
  unfold returned, failed; eexists _, _;
  repeat match goal with |- _ /\ _ => split end;
  [ .. | find_event ];
  first [reflexivity | discriminate].

Example healthy_run :
  run_q1 (healthy [sales_q1])
  = (Ok tt,
     prologue sales_q1 pbit_sales temp_sales
     ++ [Run q1_extract extracted; Run q1_compile compiled;
         Log INFO MSG_OUTPUT [VStr "C:\pbit\sales\q1.pbit"];
         Rmtree temp_sales None;
         Log INFO MSG_CLEANED [VPath temp_sales]]).
Proof. vm_compute. reflexivity. Qed.

Example blank_path_run :
  run_q1 blank_path_world
  = (Ok tt,
     prologue sales_q1 pbit_sales temp_sales
     ++ [Run q1_extract extracted; Run q1_compile (exited 0 blank_output);
         Log WARNING MSG_NO_PBIT [VStr "q1.pbix"]]).
Proof. vm_compute. reflexivity. Qed.

Example no_model_run :
  run_q1 no_model_world
  = (Ok tt,
     prologue sales_q1 pbit_sales temp_sales
     ++ [Run q1_extract extracted; Run q1_compile (exited 0 no_model_output);
         Log WARNING MSG_SKIPPING [];
         Log WARNING MSG_NO_PBIT [VStr "q1.pbix"]]).
Proof. vm_compute. reflexivity. Qed.

Example not_deserialized_run :
  run_q1 not_deserialized_world
  = (Ok tt,
     prologue sales_q1 pbit_sales temp_sales
     ++ [Run q1_extract (exited 1 not_deserialized_output);
         Log ERROR MSG_MODEL_NOT_SUPPORTED [];
         Log DEBUG MSG_SUBPROCESS_DEBUG
           [VStr "extraction of q1.pbix"; VInt 1;
            VExn (CalledProcessError 1 q1_extract not_deserialized_output "");
            VStr (PyStr.join " " q1_extract);
            VStr not_deserialized_output; VStr ""]]).
Proof. vm_compute. reflexivity. Qed.

Example silent_extraction_run :
  run_q1 silent_extraction_world
  = (Ok tt,
     prologue sales_q1 pbit_sales temp_sales
     ++ [Run q1_extract (exited 0 "")]).
Proof. vm_compute. reflexivity. Qed.

Example outside_then_q1_run :
  run_outside_then_q1
  = (Ok 5%Q,
     [Time 100%Q; Log ERROR MSG_UNEXPECTED [VPath elsewhere; VExn not_in_subpath];
      Time 102%Q; Log INFO MSG_COMPLETED [VStr "x.pbix"; VStr "2s"];
      Log INFO MSG_PROGRESS [VInt 1; VInt 2; VFloat 50%Q; VStr "2s"];
      Time 103%Q]
     ++ prologue sales_q1 pbit_sales temp_sales
     ++ [Run q1_extract extracted; Run q1_compile compiled;
         Log INFO MSG_OUTPUT [VStr "C:\pbit\sales\q1.pbit"];
         Time 106%Q; Log INFO MSG_COMPLETED [VStr "q1.pbix"; VStr "3s"]]).
Proof. vm_compute. reflexivity. Qed.

(** A directory that cannot be created fails its item only. *)
Example sales_denied_run :
  completed_names (snd (main (world := sales_denied_world) sample_args []))
  = ["q1.pbix"; "staff.pbix"]%string /\
  In (Log ERROR MSG_UNEXPECTED
        [VPath sales_q1;
         VExn (OtherException "PermissionError" "Access is denied")])
     (snd (main (world := sales_denied_world) sample_args [])) /\
  In (Log INFO MSG_OUTPUT [VStr "C:\pbit\sales\q1.pbit"])
     (snd (main (world := sales_denied_world) sample_args [])).
Proof. vm_compute. intuition. Qed.

(** The figures of a batch of three files that take 2, 3 and 6 seconds:
    after the first file the estimate is 2 / 1 * 2 = 4 seconds, after
    the second (2 + 3) / 2 * 1 = 5/2 seconds, and the total is 11. *)
Example three_files_figures :
  durations (clock_readings (snd run_three)) = [2; 3; 6]%Q /\
  filter (fun ev => match ev with
                    | Log INFO msg (VInt _ :: _) => String.eqb msg MSG_PROGRESS
                    | Log INFO msg _ => String.eqb msg MSG_TOTAL
                    | _ => false
                    end) (snd run_three)
  = [Log INFO MSG_PROGRESS
       [VInt 1; VInt 3; VFloat (100 # 3)%Q; VStr "4s"];
     Log INFO MSG_PROGRESS
       [VInt 2; VInt 3; VFloat (200 # 3)%Q; VStr "2s"];
     Log INFO MSG_TOTAL [VStr "11s"]].
Proof. vm_compute. split; reflexivity. Qed.


(** ** C1 *)

(** C1 at a healthy conversion: the blanks around the captured path are
    gone from the logged location. *)
Lemma C1_witness_trimmed_path :
  In (Log INFO MSG_OUTPUT [VStr "C:\pbit\sales\q1.pbit"])
     (snd (process_pbix_file (world := healthy [sales_q1])
             sales_q1 pbit cli_exe core_exe reports temp true [])) /\
  forallb (fun ev => negb (is_error ev || is_warning ev))
     (snd (process_pbix_file (world := healthy [sales_q1])
             sales_q1 pbit cli_exe core_exe reports temp true []))
  = true.
Proof.
  apply (C1_success_reports_trimmed_path (world := healthy [sales_q1])
           sales_q1 pbit cli_exe core_exe reports temp true []
           "Extraction complete." compiled_output
           " C:\pbit\sales\q1.pbit  ").
  - reflexivity.
  - vm_compute. discriminate.
  - change (returned "extract" "Extraction complete."
              (snd (run_q1 (healthy [sales_q1])))).
    rewrite healthy_run. find_returned.
  - discriminate.
  - change (returned "compile" compiled_output
              (snd (run_q1 (healthy [sales_q1])))).
    rewrite healthy_run. find_returned.
Defined.

(** C1 as stated fails when nothing but blanks follows the marker: both
    tools returned output and the marker matches, with an empty group,
    yet no output location is logged, only the warning that no file was
    generated. *)
Lemma C1_counterexample_blank_path :
  returned "extract" "Extraction complete." (snd (run_q1 blank_path_world)) /\
  returned "compile" blank_output (snd (run_q1 blank_path_world)) /\
  Re.search_group PBIT_MARKER blank_output = Some ""%string /\
  (forall p,
     ~ In (Log INFO MSG_OUTPUT [VStr p]) (snd (run_q1 blank_path_world))) /\
  In (Log WARNING MSG_NO_PBIT [VStr "q1.pbix"]) (snd (run_q1 blank_path_world)).
Proof.
  rewrite blank_path_run.
  split; [find_returned|]. split; [find_returned|].
  split; [reflexivity|]. split; [|find_event].
  intros p Hin. cbn [In app prologue snd] in Hin.
  repeat match type of Hin with
         | _ \/ _ => destruct Hin as [Hin|Hin]
         end; try discriminate Hin; exact Hin.
Qed.

(** ** C3 *)

(** C3 at a compilation that reports the missing model. *)
Lemma C3_witness_missing_model :
  (forall h0,
     parse_pbit_output no_model_output h0
     = (Ok None, [Log WARNING MSG_SKIPPING []])) /\
  (returned "compile" no_model_output (snd (run_q1 no_model_world)) ->
   In (Log WARNING MSG_SKIPPING []) (snd (run_q1 no_model_world)) /\
   In (Log WARNING MSG_NO_PBIT [VStr "q1.pbix"])
      (snd (run_q1 no_model_world)) /\
   forallb (fun ev => negb (is_error ev)) (snd (run_q1 no_model_world))
   = true).
Proof.
  apply (C3_missing_model_is_a_warning (world := no_model_world)
           sales_q1 pbit cli_exe core_exe reports temp true []
           no_model_output).
  - reflexivity.
  - reflexivity.
Defined.

(** ** C5 *)

(** C5 at a file of another drive, followed by a file of the report
    folder. *)
Lemma C5_witness_file_outside_root :
  (forall h0,
     process_pbix_file (world := healthy []) elsewhere pbit cli_exe core_exe
       reports temp false h0
     = (Ok tt, [Log ERROR MSG_UNEXPECTED [VPath elsewhere; VExn not_in_subpath]])) /\
  exists t0 t1 h',
    let T' := float_add float_zero (float_sub t1 t0) in
    main_loop (world := healthy []) [elsewhere; sales_q1]
      pbit cli_exe core_exe reports temp false 2 0 float_zero []
    = (fst (main_loop (world := healthy []) [sales_q1]
              pbit cli_exe core_exe reports temp false 2 (0 + 1) T' h'),
       [Time t0; Log ERROR MSG_UNEXPECTED [VPath elsewhere; VExn not_in_subpath];
        Time t1]
       ++ item_report elsewhere (float_sub t1 t0) 2 (0 + 1) T'
       ++ snd (main_loop (world := healthy []) [sales_q1]
                 pbit cli_exe core_exe reports temp false 2 (0 + 1) T' h')).
Proof.
  apply (C5_file_outside_root_fails_the_item_only (world := healthy [])
           elsewhere [sales_q1] pbit cli_exe core_exe reports temp false
           2 0 float_zero [] not_in_subpath).
  reflexivity.
Defined.

(** C5 as stated fails: the file lies outside the report folder, the
    relative path cannot be computed, and yet the loop runs to its end
    and converts the file that follows. *)
Lemma C5_counterexample_batch_continues :
  PurePath.relative_to elsewhere reports = Raise not_in_subpath /\
  (exists total, fst run_outside_then_q1 = Ok total) /\
  completed_names (snd run_outside_then_q1) = ["x.pbix"; "q1.pbix"]%string /\
  In (Log ERROR MSG_UNEXPECTED [VPath elsewhere; VExn not_in_subpath])
     (snd run_outside_then_q1) /\
  In (Log INFO MSG_OUTPUT [VStr "C:\pbit\sales\q1.pbit"])
     (snd run_outside_then_q1).
Proof.
  rewrite outside_then_q1_run.
  split; [reflexivity|]. split; [eexists; reflexivity|].
  split; [reflexivity|]. split; find_event.
Qed.

(** ** C6 *)

(** C6 as stated fails: two distinct files of one folder get the same
    target directory and the same extraction directory. *)
Lemma C6_counterexample_same_folder :
  sales_q1 <> sales_q2 /\
  resolve_dirs sales_q1 pbit reports temp = Ok (pbit_sales, temp_sales) /\
  resolve_dirs sales_q2 pbit reports temp = Ok (pbit_sales, temp_sales).
Proof. split; [discriminate|]. split; reflexivity. Qed.

(** ** C7 *)

(** C7 as stated fails at the extraction stage: the tool exits with
    code 1 and the deserialization text, and the item logs an error
    record, and no warning at all. *)
Lemma C7_counterexample_extraction_error :
  failed "extract" 1 not_deserialized_output
    (snd (run_q1 not_deserialized_world)) /\
  PyStr.contains MODEL_NOT_DESERIALIZED not_deserialized_output = true /\
  In (Log ERROR MSG_MODEL_NOT_SUPPORTED [])
     (snd (run_q1 not_deserialized_world)) /\
  forallb (fun ev => negb (is_warning ev))
     (snd (run_q1 not_deserialized_world)) = true.
Proof.
  rewrite not_deserialized_run.
  split; [find_returned|]. split; [reflexivity|].
  split; [find_event|reflexivity].
Qed.

(** ** C8 *)

(** C8 at a batch of three files. *)
Lemma C8_witness_three_files :
  length (durations (clock_readings (snd run_three))) = length three_files /\
  (forall k, (1 <= k < length three_files)%nat ->
     In (progress_record (Z.of_nat (length three_files)) (Z.of_nat k)
           (accumulate float_zero
              (firstn k (durations (clock_readings (snd run_three))))))
        (snd run_three)) /\
  (three_files <> [] ->
   In (Log INFO MSG_TOTAL
         [VStr (format_duration
                  (accumulate float_zero
                     (durations (clock_readings (snd run_three)))))])
      (snd run_three)).
Proof.
  apply (C8_progress_accounting (world := healthy three_files)
           sample_args [] three_files).
  vm_compute. do 3 right. left. reflexivity.
Defined.

(** ** C10 *)

(** C10 at an extraction that exits with code 0 and prints nothing. *)
Lemma C10_witness_silent_extraction :
  fst (run_q1 silent_extraction_world) = Ok tt /\
  (exists before,
     snd (run_q1 silent_extraction_world)
     = before ++ [Run q1_extract (inr (mkCompleted 0 "" ""))]) /\
  (forall p,
     ~ In (Log INFO MSG_OUTPUT [VStr p]) (snd (run_q1 silent_extraction_world))).
Proof.
  apply (C10_empty_output_aborts_the_item (world := silent_extraction_world)
           sales_q1 pbit cli_exe core_exe reports temp true []
           q1_extract "").
  change (In (Run q1_extract (inr (mkCompleted 0 "" "")))
             (snd (run_q1 silent_extraction_world))).
  rewrite silent_extraction_run. find_event.
Defined.

(** ** Further properties *)

Definition top_level : Path := drive_c ["reports"; "top.pbix"]%string.

Definition unrecognised_output : string := "Nothing to do.".

Definition unrecognised_world : @World QType :=
  scripted [sales_q1] no_mkdir_error extracted (exited 0 unrecognised_output)
    readings.

Definition access_denied : Exn :=
  OtherException "PermissionError" "Access is denied".

Example unrecognised_run :
  run_q1 unrecognised_world
  = (Ok tt,
     prologue sales_q1 pbit_sales temp_sales
     ++ [Run q1_extract extracted;
         Run q1_compile (exited 0 unrecognised_output);
         Log ERROR MSG_PARSE_FAILED [];
         Log WARNING MSG_NO_PBIT [VStr "q1.pbix"]]).
Proof. vm_compute. reflexivity. Qed.

Example sales_denied_item_run :
  run_q1 sales_denied_world
  = (Ok tt,
     [Log INFO (PyStr.repeat "-" 70) []; Log INFO MSG_PROCESSING [VPath sales_q1];
      Mkdir pbit None; Mkdir pbit_sales (Some access_denied);
      Log ERROR MSG_UNEXPECTED [VPath sales_q1; VExn access_denied]]).
Proof. vm_compute. reflexivity. Qed.

Example top_level_run :
  process_pbix_file (world := healthy [top_level])
    top_level pbit cli_exe core_exe reports temp true []
  = (Ok tt,
     prologue top_level pbit temp
     ++ [Run (extract_command cli_exe top_level temp) extracted;
         Run (compile_command core_exe temp pbit) compiled;
         Log INFO MSG_OUTPUT [VStr "C:\pbit\sales\q1.pbit"];
         Rmtree temp None;
         Log INFO MSG_CLEANED [VPath temp]]).
Proof. vm_compute. reflexivity. Qed.

Example no_files_run :
  main (world := healthy []) sample_args []
  = (Ok tt, setup_events sample_args [] ++ [Log WARNING MSG_NO_FILES []]).
Proof. vm_compute. reflexivity. Qed.

(** X1 at the logger of the program and an error record. *)
Lemma X1_witness_unconfigured_logger :
  destinations logger ERROR = [Stdout].
Proof.
  apply (get_logger_routes_by_level unconfigured ERROR); reflexivity.
Defined.

(** X4 at an extraction that exits with code 1. *)
Lemma X4_witness_failed_extraction :
  written_to Stdout
    (snd (run_subprocess (world := not_deserialized_world)
            q1_extract "extraction of q1.pbix" []))
  = [Log ERROR MSG_MODEL_NOT_SUPPORTED []] /\
  written_to Stderr
    (snd (run_subprocess (world := not_deserialized_world)
            q1_extract "extraction of q1.pbix" []))
  = [Log DEBUG MSG_SUBPROCESS_DEBUG
       [VStr "extraction of q1.pbix"; VInt 1;
        VExn (CalledProcessError 1 q1_extract not_deserialized_output "");
        VStr (PyStr.join " " q1_extract);
        VStr not_deserialized_output; VStr ""]].
Proof.
  apply (run_subprocess_details_on_stderr (world := not_deserialized_world)
           q1_extract "extraction of q1.pbix" []
           1 not_deserialized_output "").
  - reflexivity.
  - discriminate.
Defined.

(** X5 at a marker in another case and a path between blanks. *)
Lemma X5_witness_round_trip :
  parse_pbit_output
    ("pbit FILE written to: "
     ++ (" " ++ "C:\pbit\sales\q1.pbit" ++ "  ")
     ++ String PyStr.newline "PBIT file written to: elsewhere")%string []
  = (Ok (Some "C:\pbit\sales\q1.pbit"%string), []).
Proof.
  apply (parse_pbit_output_round_trip
           "pbit FILE written to: " " " "C:\pbit\sales\q1.pbit" "  "
           (String PyStr.newline "PBIT file written to: elsewhere") []).
  - reflexivity.
  - reflexivity.
  - reflexivity.
  - reflexivity.
  - reflexivity.
  - right. eexists. reflexivity.
Defined.

(** X6 at a compilation that prints something else. *)
Lemma X6_witness_unrecognised_output :
  (exists before,
     snd (process_pbix_file (world := unrecognised_world)
            sales_q1 pbit cli_exe core_exe reports temp true [])
     = before ++ [Log ERROR MSG_PARSE_FAILED [];
                  Log WARNING MSG_NO_PBIT [VStr (PurePath.name sales_q1)]]) /\
  forallb (fun ev => negb (is_rmtree ev))
    (snd (process_pbix_file (world := unrecognised_world)
            sales_q1 pbit cli_exe core_exe reports temp true []))
  = true /\
  (forall p,
     ~ In (Log INFO MSG_OUTPUT [VStr p])
          (snd (process_pbix_file (world := unrecognised_world)
                  sales_q1 pbit cli_exe core_exe reports temp true []))).
Proof.
  apply (unrecognised_output_is_a_parse_error (world := unrecognised_world)
           sales_q1 pbit cli_exe core_exe reports temp true []
           unrecognised_output).
  - discriminate.
  - reflexivity.
  - reflexivity.
  - change (returned "compile" unrecognised_output
              (snd (run_q1 unrecognised_world))).
    rewrite unrecognised_run. find_returned.
Defined.

(** X7 at the extraction of a healthy conversion. *)
Lemma X7_witness_directories_first :
  exists target_dir extract_folder rest,
    resolve_dirs sales_q1 pbit reports temp = Ok (target_dir, extract_folder) /\
    snd (process_pbix_file (world := healthy [sales_q1])
           sales_q1 pbit cli_exe core_exe reports temp true [])
    = [Log INFO (PyStr.repeat "-" 70) [];
       Log INFO MSG_PROCESSING [VPath sales_q1];
       Mkdir pbit None; Mkdir target_dir None; Mkdir extract_folder None;
       Mkdir temp None] ++ rest /\
    forallb (fun ev => match ev with Mkdir _ _ => false | _ => true end) rest
    = true.
Proof.
  apply (directories_are_created_before_any_process
           (world := healthy [sales_q1])
           sales_q1 pbit cli_exe core_exe reports temp true []
           q1_extract extracted).
  change (In (Run q1_extract extracted) (snd (run_q1 (healthy [sales_q1])))).
  rewrite healthy_run. find_event.
Defined.

(** X8 at a target directory that cannot be created. *)
Lemma X8_witness_mkdir_failure :
  (exists before,
     snd (process_pbix_file (world := sales_denied_world)
            sales_q1 pbit cli_exe core_exe reports temp true [])
     = before ++ [Mkdir pbit_sales (Some access_denied);
                  Log ERROR MSG_UNEXPECTED
                    [VPath sales_q1; VExn access_denied]]) /\
  forallb (fun ev => negb (is_run ev || is_rmtree ev))
    (snd (process_pbix_file (world := sales_denied_world)
            sales_q1 pbit cli_exe core_exe reports temp true []))
  = true.
Proof.
  apply (mkdir_failure_ends_the_item (world := sales_denied_world)
           sales_q1 pbit cli_exe core_exe reports temp true []
           pbit_sales access_denied).
  change (In (Mkdir pbit_sales (Some access_denied))
             (snd (run_q1 sales_denied_world))).
  rewrite sales_denied_item_run. find_event.
Defined.

(** X10 at a file that lies directly in the report folder. *)
Lemma X10_witness_top_level_file :
  resolve_dirs (reports // mkPath "" ["top.pbix"%string]) pbit reports temp
  = Ok (pbit, temp) /\
  exists deletion_error,
    In (Rmtree temp deletion_error)
       (snd (process_pbix_file (world := healthy [top_level])
               (reports // mkPath "" ["top.pbix"%string])
               pbit cli_exe core_exe reports temp true [])).
Proof.
  apply (cleaning_a_top_level_file_deletes_the_temp_folder
           (world := healthy [top_level])
           reports pbit cli_exe core_exe temp "top.pbix" []
           "C:\pbit\sales\q1.pbit").
  change (In (Log INFO MSG_OUTPUT [VStr "C:\pbit\sales\q1.pbit"])
            (snd (process_pbix_file (world := healthy [top_level])
                    top_level pbit cli_exe core_exe reports temp true []))).
  rewrite top_level_run. find_event.
Defined.

(** X13 at an empty report folder. *)
Lemma X13_witness_no_files :
  main (world := healthy []) sample_args []
  = (Ok tt, setup_events sample_args [] ++ [Log WARNING MSG_NO_FILES []]).
Proof.
  apply (main_without_files (world := healthy []) sample_args []).
  rewrite no_files_run. find_event.
Defined.

(** X14 at a batch of three files. *)
Lemma X14_witness_three_files :
  In (Log INFO MSG_FOUND [VInt (Z.of_nat (length three_files))])
     (snd run_three) /\
  completed_names (snd run_three) = map PurePath.name three_files /\
  length (clock_readings (snd run_three)) = (2 * length three_files)%nat.
Proof.
  apply (main_processes_what_it_found (world := healthy three_files)
           sample_args [] three_files).
  vm_compute. do 3 right. left. reflexivity.
Defined.

(** X15 at a batch of three files: two progress records. *)
Lemma X15_witness_three_files :
  length (filter is_progress (snd run_three)) = pred (length three_files).
Proof.
  apply (main_progress_record_count (world := healthy three_files)
           sample_args [] three_files).
  vm_compute. do 3 right. left. reflexivity.
Defined.

End Runs.
